(** * dgGit: clipboard-to-file saver (main.go)

    A shallow embedding of [main.go].  Go strings are byte sequences and are
    modelled by [string] (a sequence of [ascii], one per byte).  The file
    system is a finite map from paths to contents; dialogs, clipboard,
    registry and subprocesses are answers recorded in the world together
    with the trace of the effects performed. *)

From Stdlib Require Import ZArith Lia Bool Ascii String.
From stdpp Require Import gmap strings.

(** ** Bytes used by the program *)

Definition byte_nl : ascii := "010"%char.
Definition byte_cr : ascii := "013"%char.
Definition byte_dq : ascii := "034"%char.
Definition nl : string := String byte_nl "".
Definition dq : string := String byte_dq "".

Definition bytes (l : list nat) : string :=
  foldr (fun n s => String (ascii_of_nat n) s) "" l.

(** ** Package [strings] of the Go library

    The separators, cut sets and replaced patterns the program passes are all
    single bytes, so these arguments are of type [ascii]. *)

(** [s[n:]] *)
Fixpoint sliceFrom (n : nat) (s : string) : string :=
  match n, s with
  | S n', String _ s' => sliceFrom n' s'
  | _, _ => s
  end.

(** [strings.HasPrefix(s, prefix)] *)
Fixpoint strings_HasPrefix (s prefix : string) {struct prefix} : bool :=
  match prefix with
  | "" => true
  | String p prefix' =>
      match s with
      | "" => false
      | String c s' => Ascii.eqb c p && strings_HasPrefix s' prefix'
      end
  end.

(** [strings.TrimPrefix(s, prefix)] *)
Definition strings_TrimPrefix (s prefix : string) : string :=
  if strings_HasPrefix s prefix then sliceFrom (String.length prefix) s else s.

(** [strings.Split(s, sep)] for a one-byte separator: never empty. *)
Fixpoint strings_Split (s : string) (sep : ascii) : list string :=
  match s with
  | "" => [""]
  | String c r =>
      if Ascii.eqb c sep then "" :: strings_Split r sep
      else match strings_Split r sep with
           | h :: t => String c h :: t
           | [] => [String c ""]
           end
  end.

(** [strings.SplitN(s, sep, n)] for a one-byte separator and [n >= 0]: at
    most [n] pieces, the last one being the unsplit remainder. *)
Fixpoint strings_SplitN (s : string) (sep : ascii) (n : nat) {struct s}
  : list string :=
  match n with
  | 0 => []
  | 1 => [s]
  | S n' =>
      match s with
      | "" => [""]
      | String c r =>
          if Ascii.eqb c sep then "" :: strings_SplitN r sep n'
          else match strings_SplitN r sep n with
               | h :: t => String c h :: t
               | [] => [String c ""]
               end
      end
  end.

(** [strings.ReplaceAll(s, old, new)] for a one-byte [old]. *)
Fixpoint strings_ReplaceAll (s : string) (old : ascii) (new : string) : string :=
  match s with
  | "" => ""
  | String c r =>
      if Ascii.eqb c old then new +:+ strings_ReplaceAll r old new
      else String c (strings_ReplaceAll r old new)
  end.

(** Lower case of an ASCII byte. *)
Definition lowerByte (c : ascii) : ascii :=
  let n := nat_of_ascii c in
  if (65 <=? n)%nat && (n <=? 90)%nat then ascii_of_nat (n + 32) else c.

(** [strings.ToLower].  ASCII letters are lowered byte by byte.  Two runes
    outside ASCII lower to an ASCII letter: U+0130 (bytes C4 B0) to [i] and
    U+212A (bytes E2 84 AA) to [k].  The bytes of every other rune outside
    ASCII are kept: Go lowers such a rune to a rune outside ASCII again, and
    the program only compares the result with ASCII keys. *)
Fixpoint strings_ToLower (s : string) : string :=
  match s with
  | "" => ""
  | String c r =>
      match r with
      | String d r' =>
          if Ascii.eqb c "196" && Ascii.eqb d "176"
          then String "i" (strings_ToLower r')
          else match r' with
               | String e r'' =>
                   if Ascii.eqb c "226" && Ascii.eqb d "132" && Ascii.eqb e "170"
                   then String "k" (strings_ToLower r'')
                   else String (lowerByte c) (strings_ToLower r)
               | "" => String (lowerByte c) (strings_ToLower r)
               end
      | "" => String (lowerByte c) ""
      end
  end.

(** *** Trimming

    A trim removes, one after the other, the runes of a set from an end of
    the string.  A set of runes is given by the list of their UTF-8
    encodings.  UTF-8 is self-synchronising, so the string starts (ends)
    with a rune of the set exactly when it starts (ends) with one of the
    encodings. *)

(** The rest of [s] after the first word of [ws] that [s] starts with. *)
Fixpoint stripLead (ws : list string) (s : string) : option string :=
  match ws with
  | [] => None
  | w :: ws' =>
      if strings_HasPrefix s w then Some (sliceFrom (String.length w) s)
      else stripLead ws' s
  end.

Fixpoint trimLeftLoop (ws : list string) (fuel : nat) (s : string) : string :=
  match fuel with
  | 0 => s
  | S fuel' =>
      match stripLead ws s with
      | Some r => trimLeftLoop ws fuel' r
      | None => s
      end
  end.

(** Every iteration removes at least one byte when no word is empty, so
    [length s] iterations are enough ([trimLeft_stable] below). *)
Definition trimLeft (ws : list string) (s : string) : string :=
  trimLeftLoop ws (String.length s) s.

Definition trimRight (ws : list string) (s : string) : string :=
  String.rev (trimLeft (map String.rev ws) (String.rev s)).

(** The runes [unicode.IsSpace] accepts: U+0009..U+000D, U+0020, U+0085,
    U+00A0, U+1680, U+2000..U+200A, U+2028, U+2029, U+202F, U+205F, U+3000. *)
Definition spaceRunes : list string :=
  map (fun n => bytes [n]) [9; 10; 11; 12; 13; 32]
  ++ [bytes [194; 133]; bytes [194; 160]; bytes [225; 154; 128]]
  ++ map (fun n => bytes [226; 128; n]) (seq 128 11)
  ++ [bytes [226; 128; 168]; bytes [226; 128; 169]; bytes [226; 128; 175];
      bytes [226; 129; 159]; bytes [227; 128; 128]].

(** [strings.TrimSpace(s)]: [TrimFunc(s, unicode.IsSpace)], that is
    [TrimRightFunc(TrimLeftFunc(s, f), f)]. *)
Definition strings_TrimSpace (s : string) : string :=
  trimRight spaceRunes (trimLeft spaceRunes s).

(** [strings.Trim(s, cutset)] for a cut set of one ASCII byte:
    [trimLeftByte(trimRightByte(s, c), c)]. *)
Definition strings_Trim (s : string) (cutset : ascii) : string :=
  trimLeft [String cutset ""] (trimRight [String cutset ""] s).

(** ** Package [bufio]: a [Scanner] with the default split function

    [bufio.ScanLines] yields the text before each line feed, without a
    trailing carriage return, and the text after the last line feed when it
    is not empty.  A line whose text reaches [MaxScanTokenSize] bytes does
    not fit the buffer: [Scan] reports [ErrTooLong] by returning false, which
    ends the loop of the caller. *)

Definition MaxScanTokenSize : N := 65536.

(** [dropCR]: the data without its last byte when that is a carriage return. *)
Definition dropCR (s : string) : string :=
  match String.rev s with
  | String c r => if Ascii.eqb c byte_cr then String.rev r else s
  | "" => s
  end.

Definition scanToken (line : string) (later : list string) : list string :=
  if (MaxScanTokenSize <=? N.of_nat (String.length line))%N then []
  else dropCR line :: later.

(** The texts [scanner.Text()] takes in turn; [acc] is the part of the
    current line already read. *)
Fixpoint scanLines (acc data : string) : list string :=
  match data with
  | "" => match acc with "" => [] | _ => scanToken acc [] end
  | String c r =>
      if Ascii.eqb c byte_nl then scanToken acc (scanLines "" r)
      else scanLines (acc +:+ String c "") r
  end.

Definition bufio_Scanner (data : string) : list string := scanLines "" data.

(** ** Package [fmt]: the verb [%t] *)

Definition fmt_bool (b : bool) : string := if b then "true" else "false".

Definition unlines (ls : list string) : string :=
  foldr (fun l rest => l +:+ nl +:+ rest) "" ls.

(** ** Constants and configuration (main.go, lines 18-32) *)

Definition AppName : string := "dgGit".
Definition ConfigFileName : string := "dggit.cfg".

Record Config := mkConfig {
  StartDir : string;
  Extension : string;
  PrefixToStrip : string;
  ShowSuccess : bool;
  AutoSave : bool;
  GitAutoCommit : bool
}.

(** [Config{}] *)
Definition zeroConfig : Config := mkConfig "" "" "" false false false.

(** The literal of [loadConfig], lines 143-150. *)
Definition defaultConfig : Config := mkConfig "." ".dg" "void " true false false.

Definition setStartDir (v : string) (c : Config) : Config :=
  mkConfig v (Extension c) (PrefixToStrip c) (ShowSuccess c) (AutoSave c) (GitAutoCommit c).
Definition setExtension (v : string) (c : Config) : Config :=
  mkConfig (StartDir c) v (PrefixToStrip c) (ShowSuccess c) (AutoSave c) (GitAutoCommit c).
Definition setPrefixToStrip (v : string) (c : Config) : Config :=
  mkConfig (StartDir c) (Extension c) v (ShowSuccess c) (AutoSave c) (GitAutoCommit c).
Definition setShowSuccess (v : bool) (c : Config) : Config :=
  mkConfig (StartDir c) (Extension c) (PrefixToStrip c) v (AutoSave c) (GitAutoCommit c).
Definition setAutoSave (v : bool) (c : Config) : Config :=
  mkConfig (StartDir c) (Extension c) (PrefixToStrip c) (ShowSuccess c) v (GitAutoCommit c).
Definition setGitAutoCommit (v : bool) (c : Config) : Config :=
  mkConfig (StartDir c) (Extension c) (PrefixToStrip c) (ShowSuccess c) (AutoSave c) v.

(** *** Config Store: parsing (loadConfig, lines 158-186) *)

(** The [switch key] of lines 170-184. *)
Definition configKey (cfg : Config) (key val : string) : Config :=
  if String.eqb key "startdir" then setStartDir val cfg
  else if String.eqb key "extension" then setExtension val cfg
  else if String.eqb key "prefixtostrip" then setPrefixToStrip (strings_Trim val byte_dq) cfg
  else if String.eqb key "showsuccessmessage" then setShowSuccess (String.eqb val "true") cfg
  else if String.eqb key "autosave" then setAutoSave (String.eqb val "true") cfg
  else if String.eqb key "gitautocommit" then setGitAutoCommit (String.eqb val "true") cfg
  else cfg.

(** One iteration of the scanner loop, lines 160-184; [text] is
    [scanner.Text()]. *)
Definition configLine (cfg : Config) (text : string) : Config :=
  let line := strings_TrimSpace text in
  if String.eqb line "" || strings_HasPrefix line "#" then cfg
  else match strings_SplitN line "=" 2 with
       | [k; v] => configKey cfg (strings_ToLower (strings_TrimSpace k)) (strings_TrimSpace v)
       | _ => cfg
       end.

(** The whole loop over the content of the file. *)
Definition parseConfig (content : string) : Config :=
  fold_left configLine (bufio_Scanner content) defaultConfig.

(** *** Config Store: serialisation (saveConfigToFile, lines 261-289) *)

Definition configFileContent (cfg : Config) : string :=
  unlines [
    "# dgGit Configuration File";
    "";
    "# 1. Default Save Directory";
    "# The folder where files will save (unless you right-click a specific folder).";
    "StartDir=" +:+ StartDir cfg;
    "";
    "# 2. File Extension";
    "# The extension appended to saved files (e.g. .dg, .txt, .js)";
    "Extension=" +:+ Extension cfg;
    "";
    "# 3. Clipboard Cleaning";
    "# Text to automatically remove from the start of the filename.";
    "# You can separate multiple options with a pipe symbol " +:+ dq +:+ "|" +:+ dq +:+ ".";
    "# Example: " +:+ dq +:+ "void |int |string " +:+ dq;
    "PrefixToStrip=" +:+ PrefixToStrip cfg;
    "";
    "# 4. User Interface";
    "# Show a popup message when a file is saved successfully? (true/false)";
    "ShowSuccessMessage=" +:+ fmt_bool (ShowSuccess cfg);
    "";
    "# 5. Automation";
    "# Save immediately to StartDir without showing the folder browser? (true/false)";
    "AutoSave=" +:+ fmt_bool (AutoSave cfg);
    "";
    "# 6. Version Control";
    "# Automatically run 'git add' and 'git commit' after saving? (true/false)";
    "# Note: Git must be installed and the target folder must be a git repo.";
    "GitAutoCommit=" +:+ fmt_bool (GitAutoCommit cfg)
  ].

(** ** Filename Deriver *)

(** sanitizeFilename, lines 349-355 *)
Definition illegalChars : list ascii :=
  ["<"; ">"; ":"; byte_dq; "/"; "\"; "|"; "?"; "*"]%char.

Definition sanitizeFilename (name : string) : string :=
  fold_left (fun name char => strings_ReplaceAll name char "_") illegalChars name.

(** main, lines 84-85: the first line of the clipboard content. *)
Definition firstLineOf (content : string) : string :=
  let lines := strings_Split content byte_nl in
  strings_TrimSpace (strings_ReplaceAll (nth 0 lines "") byte_cr "").

(** main, lines 95-101: the loop over the candidates; [filenameRaw] starts as
    [firstLine] and the loop breaks at the first match. *)
Fixpoint stripLoop (firstLine : string) (prefixes : list string) : string :=
  match prefixes with
  | [] => firstLine
  | p :: rest =>
      if negb (String.eqb p "") && strings_HasPrefix firstLine p
      then strings_TrimPrefix firstLine p
      else stripLoop firstLine rest
  end.

(** main, lines 91-102 *)
Definition filenameRawOf (cfg : Config) (firstLine : string) : string :=
  if negb (String.eqb (PrefixToStrip cfg) "")
  then stripLoop firstLine (strings_Split (PrefixToStrip cfg) "|")
  else firstLine.

(** The sanitised base name of line 104, before the extension is appended. *)
Definition baseNameOf (cfg : Config) (firstLine : string) : string :=
  sanitizeFilename (strings_TrimSpace (filenameRawOf cfg firstLine)).

(** main, line 104 *)
Definition safeFilenameOf (cfg : Config) (firstLine : string) : string :=
  baseNameOf cfg firstLine +:+ Extension cfg.

(** ** The world: answers of the environment, the file store, the trace *)

(** A Go result [(value, err)]: the value, or the text of the error. *)
Inductive result (A : Type) : Type :=
| Ok (a : A)
| Err (msg : string).
Arguments Ok {A} a.
Arguments Err {A} msg.

(** The effects of the program, in the order it performs them. *)
Inductive Event : Type :=
| EvInfo (title msg : string)
| EvWarning (title msg : string)
| EvError (title msg : string)
| EvEntry (title text defaultText : string)
| EvQuestion (title text : string) (defaultCancel : bool)
| EvBrowse (title : string) (startDir : option string)
| EvSleep (ms : nat)
| EvWriteFile (path content : string)
| EvClipboardRead
| EvClipboardWrite (text : string)
| EvExec (dir : string) (argv : list string)
| EvRegCreateKey (path : string)
| EvRegSetString (path name value : string)
| EvRegDeleteKey (path : string).

(** The answers of the environment; a run does not change them. *)
Record Env := mkEnv {
  envArgs : list string;                       (* os.Args *)
  envExecutable : result string;               (* os.Executable() *)
  envHomeDir : result string;                  (* os.UserHomeDir() *)
  envOpenErr : string -> bool;                 (* os.Open fails on this path *)
  envWriteErr : string -> option string;       (* os.WriteFile fails on this path *)
  envBrowse : string -> result string;         (* folder dialog, by title *)
  envEntry : string -> string * bool;          (* dlgs.Entry, by title *)
  envQuestion : string -> bool * option string; (* dlgs.Question, by title *)
  envClipboard : result string;                (* clipboard.ReadAll() *)
  envLookPath : string -> bool;                (* exec.LookPath succeeds *)
  envExec : string -> list string -> string * option string;
                                               (* output and error of a command *)
  envRegCreateErr : string -> option string;   (* registry.CreateKey fails *)
  envRegValue : string -> string               (* default value stored under a key *)
}.

Record World := mkWorld {
  wEnv : Env;
  wFiles : gmap string string;               (* regular files and their contents *)
  wDirs : gset string;                       (* directories *)
  wTrace : list Event
}.

Definition wArgs (w : World) := envArgs (wEnv w).
Definition wExecutable (w : World) := envExecutable (wEnv w).
Definition wHomeDir (w : World) := envHomeDir (wEnv w).
Definition wOpenErr (w : World) := envOpenErr (wEnv w).
Definition wWriteErr (w : World) := envWriteErr (wEnv w).
Definition wBrowse (w : World) := envBrowse (wEnv w).
Definition wEntry (w : World) := envEntry (wEnv w).
Definition wQuestion (w : World) := envQuestion (wEnv w).
Definition wClipboard (w : World) := envClipboard (wEnv w).
Definition wLookPath (w : World) := envLookPath (wEnv w).
Definition wExec (w : World) := envExec (wEnv w).
Definition wRegCreateErr (w : World) := envRegCreateErr (wEnv w).
Definition wRegValue (w : World) := envRegValue (wEnv w).

Definition emit (e : Event) (w : World) : World :=
  let '(mkWorld env files dirs trace) := w in
  mkWorld env files dirs (trace ++ [e]).

Definition putFile (path content : string) (w : World) : World :=
  let '(mkWorld env files dirs trace) := w in
  mkWorld env (<[path := content]> files) dirs trace.

(** *** The calls into the libraries *)

Definition dlgs_Info (title msg : string) (w : World) : World :=
  emit (EvInfo title msg) w.
Definition dlgs_Warning (title msg : string) (w : World) : World :=
  emit (EvWarning title msg) w.
Definition dlgs_Error (title msg : string) (w : World) : World :=
  emit (EvError title msg) w.

(** [dlgs.Entry] returns the text, a success flag and an error. *)
Definition dlgs_Entry (title text defaultText : string) (w : World)
  : string * bool * World :=
  (wEntry w title, emit (EvEntry title text defaultText) w).

(** [dlgs.Question] returns the answer and an error. *)
Definition dlgs_Question (title text : string) (defaultCancel : bool) (w : World)
  : bool * option string * World :=
  (wQuestion w title, emit (EvQuestion title text defaultCancel) w).

(** [dialog.Directory().Title(title)[.SetStartDir(d)].Browse()] *)
Definition dialog_Browse (title : string) (startDir : option string) (w : World)
  : result string * World :=
  (wBrowse w title, emit (EvBrowse title startDir) w).

Definition time_Sleep (ms : nat) (w : World) : World := emit (EvSleep ms) w.

(** [os.Stat(path)] succeeds. *)
Definition pathExists (w : World) (path : string) : bool :=
  bool_decide (is_Some (wFiles w !! path)) || bool_decide (path ∈ wDirs w).

(** [info.IsDir()] *)
Definition pathIsDir (w : World) (path : string) : bool :=
  bool_decide (path ∈ wDirs w).

(** [os.WriteFile(path, content, 0644)]: the error, if any. *)
Definition os_WriteFile (path content : string) (w : World) : option string * World :=
  let w := emit (EvWriteFile path content) w in
  match wWriteErr w path with
  | Some err => (Some err, w)
  | None => (None, putFile path content w)
  end.

Definition clipboard_ReadAll (w : World) : result string * World :=
  (wClipboard w, emit EvClipboardRead w).

Definition clipboard_WriteAll (text : string) (w : World) : World :=
  emit (EvClipboardWrite text) w.

(** [cmd.CombinedOutput()] and [cmd.Run()] of a command run in [dir]. *)
Definition exec_Run (dir : string) (argv : list string) (w : World)
  : string * option string * World :=
  (wExec w dir argv, emit (EvExec dir argv) w).

Definition registry_CreateKey (path : string) (w : World) : option string * World :=
  (wRegCreateErr w path, emit (EvRegCreateKey path) w).

Definition registry_SetStringValue (path name value : string) (w : World) : World :=
  emit (EvRegSetString path name value) w.

Definition registry_DeleteKey (path : string) (w : World) : World :=
  emit (EvRegDeleteKey path) w.

(** *** Texts of the dialogs *)

Definition welcomeMsg : string :=
  "Welcome to dgGit!" +:+ nl +:+ nl +:+
  "It looks like this is your first run. This small utility is designed to save code copied to your clipboard to a local Git repo."
  +:+ nl +:+ nl +:+ " But first, we need to set up a few preferences.".

Definition step1Msg : string :=
  "Next, please select the folder where you want your code saved." +:+ nl +:+ nl +:+
  "The program will prompt for a save location every time and the filebrowser will start in this folder by default, so it's good to set it to your repo or a parent folder of your repo (you can change this later by editing the config file or deleting the config file and re-running the setup wizard)."
  +:+ nl +:+ nl +:+
  "If you want to use the right-click menu on a specific folder, it doesn't matter what you choose here because it will save the code from your clipboard in the folder you right-clicked on instead.".

Definition step1Title : string :=
  "Step 1: Select a folder in which to save the code copied to your clipboard (local repo?)".

Definition step2Msg : string :=
  "Next, enter the file extension you want to use for saved files." +:+ nl +:+
  "(e.g., .dg, .txt, .js)".

Definition step3Msg : string :=
  "Next, enter the text to strip from the start of your copied code to create the filename."
  +:+ nl +:+ nl +:+
  "You can enter multiple options separated by a pipe symbol (|)." +:+ nl +:+ nl +:+
  "Example: 'void |int |string '" +:+ nl +:+
  "(Note the space after each word if needed)".

Definition step4Title : string := "Step 4: Git Integration".
Definition step5Title : string := "Step 5: Auto-Save Mode".
Definition step6Title : string := "Step 6: Desktop Shortcut".

Definition step4Msg : string :=
  "Do you want to run 'git add/commit'" +:+ nl +:+ "automatically upon save?".

Definition step5Msg : string :=
  "Do you want to skip the folder dialog and" +:+ nl +:+
  "ALWAYS save to your default folder automatically?".

Definition finalMsg (configPath : string) : string :=
  "Setup Complete!" +:+ nl +:+ nl +:+ "Settings saved to:" +:+ nl +:+ configPath
  +:+ nl +:+ nl +:+ "(Edit this file to change settings later)" +:+ nl +:+ nl +:+
  "You can now use the right-click menu or desktop shortcut.".

Definition askTitle : string :=
  "Be sure you have COPIED YOUR CODE TO THE CLIPBOARD FIRST and then select folder to save code into".

Definition cancelledMsg : string := "Setup was cancelled.".

(** ** The program *)

Section Program.

(** [filepath.Join] and [filepath.Dir] of the Go library: the program only
    passes the paths they build on. *)
Variable filepath_Join : list string -> string.
Variable filepath_Dir : string -> string.

(** saveConfigToFile, lines 260-292: the error of the write is dropped. *)
Definition saveConfigToFile (path : string) (cfg : Config) (w : World) : World :=
  snd (os_WriteFile path (configFileContent cfg) w).

(** createDesktopShortcut, lines 294-311 *)
Definition createDesktopShortcut (w : World) : option string * World :=
  match wExecutable w with
  | Err err => (Some err, w)
  | Ok exePath =>
      match wHomeDir w with
      | Err err => (Some err, w)
      | Ok home =>
          let desktopPath := filepath_Join [home; "Desktop"; AppName +:+ ".lnk"] in
          let psScript :=
            "$s=(New-Object -COM WScript.Shell).CreateShortcut('" +:+ desktopPath
            +:+ "');$s.TargetPath='" +:+ exePath +:+ "';$s.Save()" in
          let '(_, err, w) :=
            exec_Run "" ["powershell"; "-NoProfile"; "-NonInteractive"; "-Command"; psScript] w in
          (err, w)
      end
  end.

(** runSetupWizard, lines 189-258: the configuration, the cancelled flag. *)
Definition runSetupWizard (configPath : string) (w : World) : Config * bool * World :=
  let w := dlgs_Info AppName welcomeMsg w in
  (* step 1 *)
  let w := dlgs_Info "Step 1 Instructions" step1Msg w in
  let w := time_Sleep 500 w in
  match dialog_Browse step1Title None w with
  | (Err _, w) => (zeroConfig, true, dlgs_Warning AppName cancelledMsg w)
  | (Ok startDir, w) =>
      (* step 2 *)
      let w := time_Sleep 500 w in
      let w := dlgs_Info "Step 2 Instructions" step2Msg w in
      let w := time_Sleep 500 w in
      let '(ext, success, w) := dlgs_Entry "Step 2: File Extension" "File Extension:" ".dg" w in
      if negb success then (zeroConfig, true, dlgs_Warning AppName cancelledMsg w)
      else
        (* step 3 *)
        let w := time_Sleep 500 w in
        let w := dlgs_Info "Step 3 Instructions" step3Msg w in
        let w := time_Sleep 500 w in
        let '(prefix, success, w) :=
          dlgs_Entry "Step 3: Prefix Stripping" "Prefixes (separate with | ):"
            "void |int |string " w in
        if negb success then (zeroConfig, true, dlgs_Warning AppName cancelledMsg w)
        else
          (* step 4 *)
          let w := time_Sleep 500 w in
          let '(useGit, _, w) := dlgs_Question step4Title step4Msg false w in
          (* step 5 *)
          let w := time_Sleep 500 w in
          let '(autoSave, _, w) := dlgs_Question step5Title step5Msg false w in
          (* step 6 *)
          let w := time_Sleep 500 w in
          let '(createShortcut, _, w) :=
            dlgs_Question step6Title "Create a shortcut on your Desktop?" true w in
          let newCfg := mkConfig startDir ext prefix true autoSave useGit in
          let w := saveConfigToFile configPath newCfg w in
          let w :=
            if createShortcut then
              match createDesktopShortcut w with
              | (Some err, w) =>
                  dlgs_Error AppName ("Could not create shortcut:" +:+ nl +:+ err) w
              | (None, w) => w
              end
            else w in
          let w := dlgs_Info AppName (finalMsg configPath) w in
          (newCfg, false, w)
  end.

(** getExeDir, lines 357-363 *)
Definition getExeDir (w : World) : string :=
  match wExecutable w with
  | Err _ => "."
  | Ok exe => filepath_Dir exe
  end.

Definition configPath (w : World) : string :=
  filepath_Join [getExeDir w; ConfigFileName].

(** loadConfig, lines 135-187: the configuration, the cancelled flag, the
    first-run flag.  A path that cannot be opened keeps the defaults; a
    directory opens but its read fails, so the scanner yields no line. *)
Definition loadConfig (w : World) : Config * bool * bool * World :=
  let path := configPath w in
  if negb (pathExists w path) then
    let '(cfg, cancelled, w) := runSetupWizard path w in
    (cfg, cancelled, true, w)
  else if wOpenErr w path then (defaultConfig, false, false, w)
  else
    match wFiles w !! path with
    | Some content => (parseConfig content, false, false, w)
    | None => (defaultConfig, false, false, w)
    end.

(** setMenuKey, lines 386-410 *)
Definition setMenuKey (basePath exePath : string) (passArg : bool) (w : World)
  : option string * World :=
  let keyPath := basePath +:+ "\" +:+ AppName in
  let cmdPath := keyPath +:+ "\command" in
  match registry_CreateKey keyPath w with
  | (Some err, w) => (Some err, w)
  | (None, w) =>
      let w := registry_SetStringValue keyPath "" AppName w in
      let w := registry_SetStringValue keyPath "Icon" "shell32.dll,259" w in
      match registry_CreateKey cmdPath w with
      | (Some err, w) => (Some err, w)
      | (None, w) =>
          let cmdStr :=
            if passArg then dq +:+ exePath +:+ dq +:+ " " +:+ dq +:+ "%1" +:+ dq
            else dq +:+ exePath +:+ dq in
          let curr := wRegValue w cmdPath in
          if negb (String.eqb curr cmdStr)
          then (None, registry_SetStringValue cmdPath "" cmdStr w)
          else (None, w)
      end
  end.

(** updateRegistry, lines 367-384 *)
Definition updateRegistry (w : World) : option string * World :=
  match wExecutable w with
  | Err err => (Some err, w)
  | Ok exePath =>
      match setMenuKey "Software\Classes\Directory\Background\shell" exePath false w with
      | (Some err, w) => (Some err, w)
      | (None, w) =>
          match setMenuKey "Software\Classes\Directory\shell" exePath true w with
          | (Some err, w) => (Some err, w)
          | (None, w) =>
              let fileKeyPath := "Software\Classes\*\shell\" +:+ AppName in
              let w := registry_DeleteKey (fileKeyPath +:+ "\command") w in
              let w := registry_DeleteKey fileKeyPath w in
              (None, w)
          end
      end
  end.

(** runGitCommit, lines 315-333 *)
Definition runGitCommit (dir filename : string) (w : World) : option string * World :=
  if negb (wLookPath w "git") then (Some "git not found", w)
  else
    let '(out, err, w) := exec_Run dir ["git"; "add"; filename] w in
    match err with
    | Some _ => (Some ("add: " +:+ out), w)
    | None =>
        let msg := "Auto-save: " +:+ filename +:+ " (via dgGit)" in
        let '(out, err, w) := exec_Run dir ["git"; "commit"; "-m"; msg] w in
        match err with
        | Some _ => (Some ("commit: " +:+ out), w)
        | None => (None, w)
        end
    end.

(** askForFolder, lines 335-347 *)
Definition askForFolder (startDir : string) (w : World) : string * World :=
  let start :=
    if pathExists w startDir && pathIsDir w startDir then Some startDir else None in
  match dialog_Browse askTitle start w with
  | (Err _, w) => ("", w)
  | (Ok dir, w) => (dir, w)
  end.

(** main, lines 54-71: the save directory. *)
Definition resolveSaveDir (cfg : Config) (w : World) : string * World :=
  match wArgs w with
  | _ :: arg1 :: _ => (strings_TrimSpace arg1, w)
  | _ =>
      if AutoSave cfg then
        if pathExists w (StartDir cfg) then (StartDir cfg, w)
        else askForFolder (StartDir cfg) w
      else askForFolder (StartDir cfg) w
  end.

(** main, lines 77-130: the Save Pipeline, from the read of the clipboard to
    the notification. *)
Definition savePipeline (cfg : Config) (saveDir : string) (w : World) : World :=
  match clipboard_ReadAll w with
  | (Err _, w) => w
  | (Ok content, w) =>
      if String.eqb content "" then w
      else
        let firstLine := firstLineOf content in
        if String.eqb firstLine "" then w
        else
          let safeFilename := safeFilenameOf cfg firstLine in
          let fullPath := filepath_Join [saveDir; safeFilename] in
          match os_WriteFile fullPath content w with
          | (Some err, w) =>
              dlgs_Error AppName ("Error saving file:" +:+ nl +:+ err) w
          | (None, w) =>
              let '(gitMessage, w) :=
                if GitAutoCommit cfg then
                  match runGitCommit saveDir safeFilename w with
                  | (Some err, w) => (nl +:+ "(Git Commit Failed: " +:+ err +:+ ")", w)
                  | (None, w) => (nl +:+ "(Git Commit Successful)", w)
                  end
                else ("", w) in
              let w := clipboard_WriteAll "" w in
              if ShowSuccess cfg then
                dlgs_Info AppName
                  ("Saved to:" +:+ nl +:+ fullPath +:+ gitMessage +:+ nl +:+ nl
                   +:+ "(Clipboard Cleared)") w
              else w
          end
  end.

(** main, lines 37-131 *)
Definition main (w : World) : World :=
  let '(cfg, cancelled, isFirstRun, w) := loadConfig w in
  if cancelled then w
  else
    match updateRegistry w with
    | (Some err, w) =>
        dlgs_Error AppName
          ("Setup Error:" +:+ nl +:+ "Failed to update registry settings." +:+ nl +:+ err) w
    | (None, w) =>
        if isFirstRun then w
        else
          let '(saveDir, w) := resolveSaveDir cfg w in
          if String.eqb saveDir "" then w
          else savePipeline cfg saveDir w
    end.

End Program.

(** ** Sample instances, used to run the program on concrete worlds *)

(** A join of path elements with the Windows separator. *)
Definition sampleJoin (elems : list string) : string :=
  match elems with
  | [] => ""
  | e :: rest => foldl (fun acc x => acc +:+ "\" +:+ x) e rest
  end.

Definition sampleDir (exe : string) : string := "C:\tools".

Definition sampleCfgPath : string := "C:\tools\dggit.cfg".

(** A machine on which the program has never run; every dialog is answered,
    the questions with no. *)
Definition firstRunEnv : Env := {|
  envArgs := ["C:\tools\dgGit.exe"];
  envExecutable := Ok "C:\tools\dgGit.exe";
  envHomeDir := Ok "C:\Users\dev";
  envOpenErr := fun _ => false;
  envWriteErr := fun _ => None;
  envBrowse := fun _ => Ok "C:\repo";
  envEntry := fun title =>
    if String.eqb title "Step 2: File Extension" then (".dg", true)
    else ("void |int |string ", true);
  envQuestion := fun _ => (false, None);
  envClipboard := Ok ("void foo(){}" +:+ nl +:+ "body");
  envLookPath := fun _ => true;
  envExec := fun _ _ => ("", None);
  envRegCreateErr := fun _ => None;
  envRegValue := fun _ => ""
|}.

Definition firstRunWorld : World := {|
  wEnv := firstRunEnv;
  wFiles := ∅;
  wDirs := {[ "C:\repo" ]};
  wTrace := []
|}.

(** The same machine with a configuration file in place. *)
Definition withConfig (content : string) (w : World) : World :=
  putFile sampleCfgPath content w.

Definition withClipboard (c : result string) (w : World) : World :=
  let e := wEnv w in
  mkWorld
    (mkEnv (envArgs e) (envExecutable e) (envHomeDir e) (envOpenErr e) (envWriteErr e)
       (envBrowse e) (envEntry e) (envQuestion e) c (envLookPath e) (envExec e)
       (envRegCreateErr e) (envRegValue e))
    (wFiles w) (wDirs w) (wTrace w).

Definition withQuestion (q : string -> bool * option string) (w : World) : World :=
  let e := wEnv w in
  mkWorld
    (mkEnv (envArgs e) (envExecutable e) (envHomeDir e) (envOpenErr e) (envWriteErr e)
       (envBrowse e) (envEntry e) q (envClipboard e) (envLookPath e) (envExec e)
       (envRegCreateErr e) (envRegValue e))
    (wFiles w) (wDirs w) (wTrace w).

Definition withBrowse (b : string -> result string) (w : World) : World :=
  let e := wEnv w in
  mkWorld
    (mkEnv (envArgs e) (envExecutable e) (envHomeDir e) (envOpenErr e) (envWriteErr e)
       b (envEntry e) (envQuestion e) (envClipboard e) (envLookPath e) (envExec e)
       (envRegCreateErr e) (envRegValue e))
    (wFiles w) (wDirs w) (wTrace w).

(** A configuration as the wizard leaves it with its default answers. *)
Definition wizardCfg : Config :=
  mkConfig "C:\repo" ".dg" "void |int |string " true false false.

(** A configuration with auto-save and a prefix without trailing space. *)
Definition autoCfg : Config :=
  mkConfig "C:\repo" ".dg" "void |int |string" true true false.

(** The machine on a later run, with the file the wizard has written. *)
Definition laterRunWorld : World :=
  withConfig (configFileContent autoCfg) firstRunWorld.

(** ** Specification vocabulary *)

(** The byte [c] occurs in [s]. *)
Fixpoint hasByte (c : ascii) (s : string) : bool :=
  match s with
  | "" => false
  | String d r => Ascii.eqb d c || hasByte c r
  end.

Fixpoint mapBytes (f : ascii -> ascii) (s : string) : string :=
  match s with
  | "" => ""
  | String c r => String (f c) (mapBytes f r)
  end.

Definition isIllegal (c : ascii) : bool := existsb (Ascii.eqb c) illegalChars.

Definition sanitizeByte (c : ascii) : ascii := if isIllegal c then "_"%char else c.

(** The candidate the loop of lines 95-101 stops at. *)
Definition firstMatch (firstLine : string) (prefixes : list string) : option string :=
  find (fun p => negb (String.eqb p "") && strings_HasPrefix firstLine p) prefixes.

(** The steps of the wizard that can be cancelled: the folder dialog reports
    an error, an entry dialog reports no success. *)
Definition wizardCancelled (w : World) : bool :=
  match wBrowse w step1Title with
  | Err _ => true
  | Ok _ =>
      negb (snd (wEntry w "Step 2: File Extension"))
      || negb (snd (wEntry w "Step 3: Prefix Stripping"))
  end.

Definition isWrite (e : Event) : bool :=
  match e with EvWriteFile _ _ => true | _ => false end.

Definition isClipboardRead (e : Event) : bool :=
  match e with EvClipboardRead => true | _ => false end.


(** The key and the value a line of the configuration file assigns, if any:
    lines 160-168 of loadConfig. *)
Definition lineAssign (text : string) : option (string * string) :=
  let line := strings_TrimSpace text in
  if String.eqb line "" || strings_HasPrefix line "#" then None
  else match strings_SplitN line "=" 2 with
       | [k; v] => Some (strings_ToLower (strings_TrimSpace k), strings_TrimSpace v)
       | _ => None
       end.

(** The line assigns the key [key]. *)
Definition assigns (key text : string) : bool :=
  match lineAssign text with
  | Some (k, _) => String.eqb k key
  | None => false
  end.




(** No word of the list is empty. *)
Definition nonEmptyWords (ws : list string) : Prop := Forall (fun w => w <> "") ws.

(** The sanitised name holds none of the illegal characters. *)
Definition hasIllegal (s : string) : bool := existsb (fun c => hasByte c s) illegalChars.



(** *** Events, registry keys and wizard steps *)

(** No word of the list is empty, and a word that holds the byte [sep] is a
    single byte. *)
Definition byteOrFree (sep : ascii) (ws : list string) : Prop :=
  forall w, In w ws -> w <> "" /\ (hasByte sep w = false \/ String.length w = 1).

Definition isExec (e : Event) : bool :=
  match e with EvExec _ _ => true | _ => false end.

Definition isRegistry (e : Event) : bool :=
  match e with
  | EvRegCreateKey _ | EvRegSetString _ _ _ | EvRegDeleteKey _ => true
  | _ => false
  end.

Definition isPrompt (e : Event) : bool :=
  match e with
  | EvEntry _ _ _ | EvQuestion _ _ _ | EvBrowse _ _ => true
  | _ => false
  end.

(** The two commands of runGitCommit, lines 319 and 327. *)
Definition gitAdd (filename : string) : list string := ["git"; "add"; filename].
Definition gitCommit (filename : string) : list string :=
  ["git"; "commit"; "-m"; "Auto-save: " +:+ filename +:+ " (via dgGit)"].

(** The events runGitCommit adds in the environment [env]. *)
Definition gitEvents (env : Env) (dir filename : string) : list Event :=
  if negb (envLookPath env "git") then []
  else match snd (envExec env dir (gitAdd filename)) with
       | Some _ => [EvExec dir (gitAdd filename)]
       | None => [EvExec dir (gitAdd filename); EvExec dir (gitCommit filename)]
       end.

(** The registry keys of updateRegistry, lines 373-382. *)
Definition backgroundKey : string := "Software\Classes\Directory\Background\shell\dgGit".
Definition folderKey : string := "Software\Classes\Directory\shell\dgGit".
Definition legacyKey : string := "Software\Classes\*\shell\dgGit".
Definition commandOf (key : string) : string := key +:+ "\command".

(** The command lines of setMenuKey, lines 401-404. *)
Definition backgroundCommand (exe : string) : string := dq +:+ exe +:+ dq.
Definition folderCommand (exe : string) : string :=
  dq +:+ exe +:+ dq +:+ " " +:+ dq +:+ "%1" +:+ dq.

(** The keys updateRegistry creates, in the order of the source. *)
Definition registryKeys : list string :=
  [backgroundKey; commandOf backgroundKey; folderKey; commandOf folderKey].

(** The events of a setMenuKey that succeeds. *)
Definition menuKeyEvents (env : Env) (key cmdStr : string) : list Event :=
  [EvRegCreateKey key; EvRegSetString key "" AppName;
   EvRegSetString key "Icon" "shell32.dll,259"; EvRegCreateKey (commandOf key)]
  ++ (if String.eqb (envRegValue env (commandOf key)) cmdStr then []
      else [EvRegSetString (commandOf key) "" cmdStr]).

(** The events of the wizard, step by step (runSetupWizard, lines 190-235). *)
Definition wizardStep1 : list Event :=
  [EvInfo AppName welcomeMsg; EvInfo "Step 1 Instructions" step1Msg; EvSleep 500;
   EvBrowse step1Title None].
Definition wizardStep2 : list Event :=
  [EvSleep 500; EvInfo "Step 2 Instructions" step2Msg; EvSleep 500;
   EvEntry "Step 2: File Extension" "File Extension:" ".dg"].
Definition wizardStep3 : list Event :=
  [EvSleep 500; EvInfo "Step 3 Instructions" step3Msg; EvSleep 500;
   EvEntry "Step 3: Prefix Stripping" "Prefixes (separate with | ):" "void |int |string "].
Definition wizardQuestions : list Event :=
  [EvSleep 500; EvQuestion step4Title step4Msg false;
   EvSleep 500; EvQuestion step5Title step5Msg false;
   EvSleep 500; EvQuestion step6Title "Create a shortcut on your Desktop?" true].


Definition isClipboard (e : Event) : bool :=
  match e with EvClipboardRead | EvClipboardWrite _ => true | _ => false end.

(** The command createDesktopShortcut runs, lines 305-309. *)
Definition shortcutCommand (Join : list string -> string) (home exe : string)
  : list string :=
  ["powershell"; "-NoProfile"; "-NonInteractive"; "-Command";
   "$s=(New-Object -COM WScript.Shell).CreateShortcut('"
   +:+ Join [home; "Desktop"; AppName +:+ ".lnk"]
   +:+ "');$s.TargetPath='" +:+ exe +:+ "';$s.Save()"].

(** The error of createDesktopShortcut and the command it has run. *)
Definition shortcutRun (Join : list string -> string) (env : Env)
  : option string * list Event :=
  match envExecutable env with
  | Err err => (Some err, [])
  | Ok exe =>
      match envHomeDir env with
      | Err err => (Some err, [])
      | Ok home =>
          (snd (envExec env "" (shortcutCommand Join home exe)),
           [EvExec "" (shortcutCommand Join home exe)])
      end
  end.

(** The events of step 6 of the wizard when the answer is yes, lines 248-252. *)
Definition shortcutEvents (Join : list string -> string) (env : Env) : list Event :=
  snd (shortcutRun Join env)
  ++ match fst (shortcutRun Join env) with
     | Some err => [EvError AppName ("Could not create shortcut:" +:+ nl +:+ err)]
     | None => []
     end.


Definition withArgs (args : list string) (w : World) : World :=
  let env := wEnv w in
  mkWorld
    (mkEnv args (envExecutable env) (envHomeDir env) (envOpenErr env) (envWriteErr env)
       (envBrowse env) (envEntry env) (envQuestion env) (envClipboard env)
       (envLookPath env) (envExec env) (envRegCreateErr env) (envRegValue env))
    (wFiles w) (wDirs w) (wTrace w).

Definition withExecutable (exe : result string) (w : World) : World :=
  let env := wEnv w in
  mkWorld
    (mkEnv (envArgs env) exe (envHomeDir env) (envOpenErr env) (envWriteErr env)
       (envBrowse env) (envEntry env) (envQuestion env) (envClipboard env)
       (envLookPath env) (envExec env) (envRegCreateErr env) (envRegValue env))
    (wFiles w) (wDirs w) (wTrace w).

(** A configuration whose start directory does not fit a line of the scanner. *)
Definition longDirCfg : Config :=
  mkConfig (string_of_list_ascii (List.repeat "a"%char (N.to_nat 65536))) ".dg" "void " true false false.

(** * Properties *)

#[local] Arguments String.append : simpl nomatch.

(** ** Strings *)

Lemma sapp_nil_r (s : string) : s +:+ "" = s.
Proof. induction s as [|c s IH]; simpl; [reflexivity | now rewrite IH]. Qed.

Lemma sapp_assoc (a b c : string) : (a +:+ b) +:+ c = a +:+ b +:+ c.
Proof. induction a as [|x a IH]; simpl; [reflexivity | now rewrite IH]. Qed.

Lemma slength_app (a b : string) :
  String.length (a +:+ b) = String.length a + String.length b.
Proof. induction a as [|x a IH]; simpl; [reflexivity | now rewrite IH]. Qed.

Lemma srev_app_spec (s acc : string) : String.rev_app s acc = String.rev s +:+ acc.
Proof.
  unfold String.rev. revert acc.
  induction s as [|c s IH]; intros acc; simpl; [reflexivity|].
  rewrite IH, (IH (String c "")), sapp_assoc. reflexivity.
Qed.

Lemma srev_cons (c : ascii) (s : string) :
  String.rev (String c s) = String.rev s +:+ String c "".
Proof. unfold String.rev at 1. simpl. apply srev_app_spec. Qed.

Lemma srev_app (a b : string) : String.rev (a +:+ b) = String.rev b +:+ String.rev a.
Proof.
  induction a as [|x a IH]; simpl.
  - now rewrite sapp_nil_r.
  - now rewrite !srev_cons, IH, sapp_assoc.
Qed.

Lemma srev_involutive (s : string) : String.rev (String.rev s) = s.
Proof.
  induction s as [|c s IH]; [reflexivity|].
  now rewrite srev_cons, srev_app, IH.
Qed.

Lemma srev_length (s : string) : String.length (String.rev s) = String.length s.
Proof.
  induction s as [|c s IH]; [reflexivity|].
  rewrite srev_cons, slength_app, IH. simpl. lia.
Qed.

Lemma HasPrefix_split (s p : string) :
  strings_HasPrefix s p = true -> s = p +:+ sliceFrom (String.length p) s.
Proof.
  revert s. induction p as [|c p IH]; intros s H; simpl in *; [reflexivity|].
  destruct s as [|d s]; [discriminate|].
  apply andb_true_iff in H as [Hc Hp]. apply Ascii.eqb_eq in Hc. subst d.
  simpl. f_equal. now apply IH.
Qed.

Lemma HasPrefix_app (p s : string) : strings_HasPrefix (p +:+ s) p = true.
Proof.
  induction p as [|c p IH]; simpl; [reflexivity|].
  now rewrite Ascii.eqb_refl.
Qed.

Lemma sliceFrom_app (p s : string) : sliceFrom (String.length p) (p +:+ s) = s.
Proof. induction p as [|c p IH]; simpl; [now destruct s | exact IH]. Qed.

Lemma TrimPrefix_app (p s : string) : strings_TrimPrefix (p +:+ s) p = s.
Proof. unfold strings_TrimPrefix. now rewrite HasPrefix_app, sliceFrom_app. Qed.

Lemma HasPrefix_app_l (a x w : string) :
  strings_HasPrefix a w = true -> strings_HasPrefix (a +:+ x) w = true.
Proof.
  revert a. induction w as [|c w IH]; intros a H; simpl in *; [reflexivity|].
  destruct a as [|d a]; [discriminate|]. simpl.
  apply andb_true_iff in H as [-> Hp]. simpl. now apply IH.
Qed.

(** ** Trimming *)

Lemma stripLead_Some (ws : list string) (s r : string) :
  stripLead ws s = Some r -> exists w, In w ws /\ s = w +:+ r.
Proof.
  induction ws as [|w ws IH]; simpl; [discriminate|].
  destruct (strings_HasPrefix s w) eqn:E.
  - intros [= <-]. exists w. split; [now left | now apply HasPrefix_split].
  - intros H. destruct (IH H) as (w' & Hin & Hs). exists w'. split; [now right | exact Hs].
Qed.

Lemma stripLead_shorter (ws : list string) (s r : string) :
  nonEmptyWords ws -> stripLead ws s = Some r -> String.length r < String.length s.
Proof.
  intros Hne H. destruct (stripLead_Some _ _ _ H) as (w & Hin & ->).
  rewrite slength_app. unfold nonEmptyWords in Hne. rewrite Forall_forall in Hne.
  specialize (Hne w). destruct w; simpl; [exfalso; apply Hne; [now apply list_elem_of_In | reflexivity] | lia].
Qed.

Lemma stripLead_prefix_None (ws : list string) (u x : string) :
  stripLead ws (u +:+ x) = None -> stripLead ws u = None.
Proof.
  induction ws as [|w ws IH]; simpl; [reflexivity|].
  destruct (strings_HasPrefix u w) eqn:E.
  - now rewrite (HasPrefix_app_l _ x _ E).
  - destruct (strings_HasPrefix (u +:+ x) w); [discriminate | exact IH].
Qed.

Lemma trimLeftLoop_fixed (ws : list string) (n : nat) (s : string) :
  stripLead ws s = None -> trimLeftLoop ws n s = s.
Proof. intros H. destruct n; simpl; [reflexivity | now rewrite H]. Qed.

Lemma trimLeftLoop_stable (ws : list string) (n : nat) (s : string) :
  nonEmptyWords ws -> String.length s <= n ->
  stripLead ws (trimLeftLoop ws n s) = None.
Proof.
  intros Hne. revert s. induction n as [|n IH]; intros s Hlen; simpl.
  - destruct s; [|simpl in Hlen; lia].
    destruct (stripLead ws "") eqn:E; [|reflexivity].
    apply (stripLead_shorter _ _ _ Hne) in E. simpl in E. lia.
  - destruct (stripLead ws s) eqn:E; [|exact E].
    apply IH. apply (stripLead_shorter _ _ _ Hne) in E. lia.
Qed.

Lemma trimLeftLoop_suffix (ws : list string) (n : nat) (s : string) :
  exists x, s = x +:+ trimLeftLoop ws n s.
Proof.
  revert s. induction n as [|n IH]; intros s; simpl; [now exists ""|].
  destruct (stripLead ws s) eqn:E; [|now exists ""].
  destruct (stripLead_Some _ _ _ E) as (w & _ & ->).
  destruct (IH s0) as (x & Hx). exists (w +:+ x).
  rewrite sapp_assoc. now f_equal.
Qed.

(** The fuel of [trimLeft] is enough: its result starts with no word. *)
Lemma trimLeft_stable (ws : list string) (s : string) :
  nonEmptyWords ws -> stripLead ws (trimLeft ws s) = None.
Proof. intros H. apply trimLeftLoop_stable; [exact H | lia]. Qed.

Lemma trimLeft_fixed (ws : list string) (s : string) :
  stripLead ws s = None -> trimLeft ws s = s.
Proof. apply trimLeftLoop_fixed. Qed.

Lemma trimRight_fixed (ws : list string) (s : string) :
  stripLead (map String.rev ws) (String.rev s) = None -> trimRight ws s = s.
Proof. intros H. unfold trimRight. rewrite trimLeft_fixed by exact H. apply srev_involutive. Qed.

Lemma nonEmptyWords_rev (ws : list string) :
  nonEmptyWords ws -> nonEmptyWords (map String.rev ws).
Proof.
  unfold nonEmptyWords. rewrite !Forall_forall. intros H w Hin.
  apply list_elem_of_In, in_map_iff in Hin as (v & <- & Hv).
  intros E. apply (H v); [now apply list_elem_of_In|].
  rewrite <- (srev_involutive v), E. reflexivity.
Qed.

Lemma trimRight_stable (ws : list string) (s : string) :
  nonEmptyWords ws ->
  stripLead (map String.rev ws) (String.rev (trimRight ws s)) = None.
Proof.
  intros H. unfold trimRight. rewrite srev_involutive.
  apply trimLeft_stable, nonEmptyWords_rev, H.
Qed.

(** A right trim keeps a prefix of the string. *)
Lemma trimRight_prefix (ws : list string) (s : string) :
  exists x, s = trimRight ws s +:+ x.
Proof.
  unfold trimRight, trimLeft.
  destruct (trimLeftLoop_suffix (map String.rev ws) (String.length (String.rev s)) (String.rev s))
    as (x & Hx).
  exists (String.rev x).
  rewrite <- srev_app, <- Hx. symmetry. apply srev_involutive.
Qed.

Lemma spaceRunes_nonEmpty : nonEmptyWords spaceRunes.
Proof. unfold nonEmptyWords. repeat constructor; discriminate. Qed.

Lemma TrimSpace_noLead (s : string) :
  stripLead spaceRunes (strings_TrimSpace s) = None.
Proof.
  unfold strings_TrimSpace.
  destruct (trimRight_prefix spaceRunes (trimLeft spaceRunes s)) as (x & Hx).
  apply stripLead_prefix_None with x. rewrite <- Hx.
  apply trimLeft_stable, spaceRunes_nonEmpty.
Qed.

Lemma TrimSpace_noTrail (s : string) :
  stripLead (map String.rev spaceRunes) (String.rev (strings_TrimSpace s)) = None.
Proof. apply trimRight_stable, spaceRunes_nonEmpty. Qed.

Lemma TrimSpace_fixed (s : string) :
  stripLead spaceRunes s = None ->
  stripLead (map String.rev spaceRunes) (String.rev s) = None ->
  strings_TrimSpace s = s.
Proof.
  intros Hl Hr. unfold strings_TrimSpace.
  rewrite (trimLeft_fixed _ _ Hl). now apply trimRight_fixed.
Qed.

(** Trimming a trimmed string changes nothing. *)
Lemma TrimSpace_idem (s : string) :
  strings_TrimSpace (strings_TrimSpace s) = strings_TrimSpace s.
Proof. apply TrimSpace_fixed; [apply TrimSpace_noLead | apply TrimSpace_noTrail]. Qed.

(** ** Filename Deriver: sanitisation *)

Lemma hasByte_app (c : ascii) (a b : string) :
  hasByte c (a +:+ b) = hasByte c a || hasByte c b.
Proof. induction a as [|d a IH]; simpl; [reflexivity | now rewrite IH, orb_assoc]. Qed.


Lemma ReplaceAll_map (s : string) (old c' : ascii) :
  strings_ReplaceAll s old (String c' "") =
  mapBytes (fun c => if Ascii.eqb c old then c' else c) s.
Proof.
  induction s as [|c s IH]; simpl; [reflexivity|].
  destruct (Ascii.eqb c old); simpl; now rewrite IH.
Qed.

Lemma mapBytes_compose (f g : ascii -> ascii) (s : string) :
  mapBytes f (mapBytes g s) = mapBytes (fun c => f (g c)) s.
Proof. induction s as [|c s IH]; simpl; [reflexivity | now rewrite IH]. Qed.

Lemma mapBytes_ext (f g : ascii -> ascii) (s : string) :
  (forall c, f c = g c) -> mapBytes f s = mapBytes g s.
Proof. intros H. induction s as [|c s IH]; simpl; [reflexivity | now rewrite H, IH]. Qed.

Lemma hasByte_mapBytes (f : ascii -> ascii) (c : ascii) (s : string) :
  (forall d, Ascii.eqb (f d) c = false) -> hasByte c (mapBytes f s) = false.
Proof. intros H. induction s as [|d s IH]; simpl; [reflexivity | now rewrite H, IH]. Qed.

(** A property of bytes that holds of the 256 of them holds of every byte. *)
Lemma all_bytes (P : ascii -> bool) :
  forallb P (List.map ascii_of_nat (seq 0 256)) = true -> forall c, P c = true.
Proof.
  intros H c. rewrite forallb_forall in H. apply H.
  rewrite <- (ascii_nat_embedding c). apply in_map, in_seq.
  pose proof (nat_ascii_bounded c). lia.
Qed.

Lemma sanitizeFilename_map (name : string) :
  sanitizeFilename name = mapBytes sanitizeByte name.
Proof.
  unfold sanitizeFilename, illegalChars. simpl.
  rewrite !ReplaceAll_map, !mapBytes_compose.
  apply mapBytes_ext. intros c. apply Ascii.eqb_eq. revert c.
  apply all_bytes. vm_compute. reflexivity.
Qed.

Lemma sanitizeByte_legal (c d : ascii) :
  isIllegal d = true -> Ascii.eqb (sanitizeByte c) d = false.
Proof.
  intros Hd. apply Ascii.eqb_neq. intros <-.
  assert (E : forall c, negb (isIllegal (sanitizeByte c)) = true).
  { apply all_bytes. vm_compute. reflexivity. }
  specialize (E c). rewrite Hd in E. discriminate.
Qed.

Lemma sanitizeFilename_clean (name : string) : hasIllegal (sanitizeFilename name) = false.
Proof.
  rewrite sanitizeFilename_map. unfold hasIllegal.
  apply not_true_is_false. intros H. apply existsb_exists in H as (c & Hin & Hc).
  rewrite hasByte_mapBytes in Hc; [discriminate|].
  intros d. apply sanitizeByte_legal. unfold isIllegal. apply existsb_exists.
  exists c. split; [exact Hin | apply Ascii.eqb_refl].
Qed.

Lemma hasIllegal_app (a b : string) :
  hasIllegal (a +:+ b) = hasIllegal a || hasIllegal b.
Proof.
  unfold hasIllegal. induction illegalChars as [|c l IH]; simpl; [reflexivity|].
  rewrite hasByte_app, IH.
  destruct (hasByte c a), (hasByte c b), (existsb _ l), (existsb _ l); reflexivity.
Qed.

(** C5. The name the Filename Deriver builds from the first line goes through
    sanitizeFilename, which replaces every occurrence of each of the nine
    characters (less-than, greater-than, colon, double quote, slash, backslash,
    vertical bar, question mark, asterisk) by an underscore, byte for byte, and whose
    result holds none of them; the extension is appended to that result as it
    is, so the file name holds one of them exactly when the extension does. *)
Theorem sanitized_name_has_no_illegal_character :
  (forall name,
     sanitizeFilename name = mapBytes sanitizeByte name /\
     hasIllegal (sanitizeFilename name) = false) /\
  (forall cfg firstLine,
     baseNameOf cfg firstLine =
       mapBytes sanitizeByte (strings_TrimSpace (filenameRawOf cfg firstLine)) /\
     hasIllegal (baseNameOf cfg firstLine) = false /\
     safeFilenameOf cfg firstLine = baseNameOf cfg firstLine +:+ Extension cfg /\
     hasIllegal (safeFilenameOf cfg firstLine) = hasIllegal (Extension cfg)) /\
  forall c, isIllegal c = true <-> In c ["<"; ">"; ":"; byte_dq; "/"; "\"; "|"; "?"; "*"]%char.
Proof.
  split; [|split].
  - intros name. split; [apply sanitizeFilename_map | apply sanitizeFilename_clean].
  - intros cfg firstLine. unfold safeFilenameOf, baseNameOf.
    split; [apply sanitizeFilename_map|]. split; [apply sanitizeFilename_clean|].
    split; [reflexivity|]. now rewrite hasIllegal_app, sanitizeFilename_clean.
  - intros c. unfold isIllegal. rewrite existsb_exists. split.
    + intros (d & Hin & Hd). apply Ascii.eqb_eq in Hd. now subst.
    + intros Hin. exists c. split; [exact Hin | apply Ascii.eqb_refl].
Qed.

(** ** Filename Deriver: prefix stripping *)

Lemma stripLoop_firstMatch (firstLine : string) (prefixes : list string) :
  stripLoop firstLine prefixes =
  match firstMatch firstLine prefixes with
  | Some p => sliceFrom (String.length p) firstLine
  | None => firstLine
  end.
Proof.
  unfold firstMatch. induction prefixes as [|p ps IH]; simpl; [reflexivity|].
  destruct (negb (String.eqb p "") && strings_HasPrefix firstLine p) eqn:E; [|exact IH].
  apply andb_true_iff in E as [_ E]. unfold strings_TrimPrefix. now rewrite E.
Qed.

Lemma filenameRawOf_firstMatch (cfg : Config) (firstLine : string) :
  filenameRawOf cfg firstLine =
  match firstMatch firstLine (strings_Split (PrefixToStrip cfg) "|") with
  | Some p => sliceFrom (String.length p) firstLine
  | None => firstLine
  end.
Proof.
  unfold filenameRawOf. destruct (String.eqb_spec (PrefixToStrip cfg) "") as [->|Hne]; simpl.
  - reflexivity.
  - apply stripLoop_firstMatch.
Qed.

Lemma firstMatch_Some (firstLine p : string) (prefixes : list string) :
  firstMatch firstLine prefixes = Some p ->
  exists before after : list string,
    prefixes = (before ++ p :: after)%list /\ p <> "" /\
    strings_HasPrefix firstLine p = true /\
    forall q, In q before -> q = "" \/ strings_HasPrefix firstLine q = false.
Proof.
  unfold firstMatch. induction prefixes as [|q ps IH]; simpl; [discriminate|].
  destruct (negb (String.eqb q "") && strings_HasPrefix firstLine q) eqn:E.
  - intros [= ->]. exists [], ps. apply andb_true_iff in E as [E1 E2].
    repeat split; [|exact E2|intros ? []].
    intros ->. discriminate.
  - intros H. destruct (IH H) as (b & a & -> & Hne & Hp & Hb).
    exists (q :: b), a. repeat split; [exact Hne | exact Hp |].
    intros r [<-|Hr]; [|now apply Hb].
    apply andb_false_iff in E as [E|E]; [left | now right].
    apply negb_false_iff, String.eqb_eq in E. exact E.
Qed.

(** C4. With the prefix set "void |int |string " the candidates are "void ",
    "int " and "string ", in this order; for every configuration the loop
    removes the first non-empty candidate the first line starts with, and only
    that one; so a first line starting with "void foo(){}" loses "void " and
    nothing else, and the base name of "void foo(){}" is "foo(){}". *)
Theorem prefix_set_strips_first_match :
  strings_Split "void |int |string " "|" = ["void "; "int "; "string "] /\
  (forall cfg firstLine,
     filenameRawOf cfg firstLine =
       match firstMatch firstLine (strings_Split (PrefixToStrip cfg) "|") with
       | Some p => sliceFrom (String.length p) firstLine
       | None => firstLine
       end) /\
  (forall firstLine p prefixes,
     firstMatch firstLine prefixes = Some p <->
     exists before after : list string,
       prefixes = (before ++ p :: after)%list /\ p <> "" /\
       strings_HasPrefix firstLine p = true /\
       forall q, In q before -> q = "" \/ strings_HasPrefix firstLine q = false) /\
  (forall cfg rest,
     filenameRawOf (setPrefixToStrip "void |int |string " cfg) ("void foo(){}" +:+ rest)
     = "foo(){}" +:+ rest) /\
  (forall cfg,
     baseNameOf (setPrefixToStrip "void |int |string " cfg) "void foo(){}" = "foo(){}") /\
  filenameRawOf (setPrefixToStrip "void |int |string " defaultConfig) "void int x" = "int x".
Proof.
  split; [reflexivity|]. split; [apply filenameRawOf_firstMatch|].
  split; [|split; [|split]].
  - intros firstLine p prefixes. split; [apply firstMatch_Some|].
    intros (b & a & -> & Hne & Hp & Hb). unfold firstMatch.
    induction b as [|q b IH]; simpl.
    + rewrite Hp. destruct (String.eqb_spec p ""); [contradiction | reflexivity].
    + destruct (Hb q (or_introl eq_refl)) as [-> | Hq].
      * simpl. apply IH. intros r Hr. apply Hb. now right.
      * rewrite Hq, andb_false_r. apply IH. intros r Hr. apply Hb. now right.
  - intros cfg rest. reflexivity.
  - intros cfg. vm_compute. reflexivity.
  - reflexivity.
Qed.

Lemma firstMatch_None (firstLine : string) (prefixes : list string) :
  (forall p, In p prefixes -> p <> "" -> strings_HasPrefix firstLine p = false) ->
  firstMatch firstLine prefixes = None.
Proof.
  unfold firstMatch. induction prefixes as [|p ps IH]; intros H; simpl; [reflexivity|].
  destruct (String.eqb_spec p "") as [->|Hne]; simpl.
  - apply IH. intros q Hq. apply H. now right.
  - rewrite (H p (or_introl eq_refl) Hne). apply IH. intros q Hq. apply H. now right.
Qed.

(** C9. When the first line of the clipboard, carriage returns removed and
    trimmed, starts with no non-empty candidate of the configured prefix set,
    no prefix is removed: the name before sanitisation and extension is that
    trimmed first line. *)
Theorem unmatched_first_line_is_kept (cfg : Config) (content : string) :
  (forall p, In p (strings_Split (PrefixToStrip cfg) "|") -> p <> "" ->
             strings_HasPrefix (firstLineOf content) p = false) ->
  filenameRawOf cfg (firstLineOf content) = firstLineOf content /\
  strings_TrimSpace (filenameRawOf cfg (firstLineOf content)) = firstLineOf content /\
  safeFilenameOf cfg (firstLineOf content) =
    sanitizeFilename (firstLineOf content) +:+ Extension cfg.
Proof.
  intros H.
  assert (E : filenameRawOf cfg (firstLineOf content) = firstLineOf content).
  { rewrite filenameRawOf_firstMatch, (firstMatch_None _ _ H). reflexivity. }
  assert (T : strings_TrimSpace (firstLineOf content) = firstLineOf content).
  { unfold firstLineOf. apply TrimSpace_idem. }
  unfold safeFilenameOf, baseNameOf. rewrite E, T. auto.
Qed.

(** C9 on the default configuration and a line that starts with int. *)
Lemma unmatched_first_line_is_kept_witness :
  safeFilenameOf defaultConfig (firstLineOf ("  int main(){}" +:+ String byte_cr nl +:+ "body"))
  = sanitizeFilename "int main(){}" +:+ ".dg".
Proof.
  refine (proj2 (proj2 (unmatched_first_line_is_kept defaultConfig
            ("  int main(){}" +:+ String byte_cr nl +:+ "body") _))).
  intros p [<-|[]] _. vm_compute. reflexivity.
Defined.

(** ** The program *)

#[local] Arguments String.append : simpl never.

(** Symbolic execution of the calls into the libraries on a world given by
    its components; the texts stay folded. *)
Ltac step :=
  cbv beta iota zeta delta
    [dlgs_Info dlgs_Warning dlgs_Error dlgs_Entry dlgs_Question dialog_Browse
     time_Sleep clipboard_ReadAll clipboard_WriteAll exec_Run registry_CreateKey
     registry_SetStringValue registry_DeleteKey emit putFile
     wEnv wFiles wDirs wTrace wArgs wExecutable wHomeDir wOpenErr wWriteErr wBrowse
     wEntry wQuestion wClipboard wLookPath wExec wRegCreateErr wRegValue
     fst snd negb orb].

Tactic Notation "step" "in" hyp(H) :=
  cbv beta iota zeta delta
    [dlgs_Info dlgs_Warning dlgs_Error dlgs_Entry dlgs_Question dialog_Browse
     time_Sleep clipboard_ReadAll clipboard_WriteAll exec_Run registry_CreateKey
     registry_SetStringValue registry_DeleteKey emit putFile
     wEnv wFiles wDirs wTrace wArgs wExecutable wHomeDir wOpenErr wWriteErr wBrowse
     wEntry wQuestion wClipboard wLookPath wExec wRegCreateErr wRegValue
     fst snd negb orb] in H.

(** Case analysis on the answer the program is waiting for. *)
Ltac answer :=
  match goal with
  | |- context [match ?x with _ => _ end] =>
      lazymatch x with
      | context [match _ with _ => _ end] => fail
      | _ => destruct x eqn:?; cbv beta iota
      end
  end.

(** An event at the end of a trace, or before it. *)
Ltac find_event :=
  repeat first [ apply in_or_app; right; left; reflexivity | apply in_or_app; left ].

Section ProgramProperties.

(** [filepath.Join] and [filepath.Dir], as in the program. *)
Variable Join : list string -> string.
Variable Dir : string -> string.

(** C7. When the clipboard cannot be read or holds the empty string, the Save
    Pipeline does nothing but the read: the world it leaves is the one it
    found with the read added to the trace, so no file is written, no dialog
    is shown and no later step runs; a run that reaches the pipeline ends
    there. *)
Theorem empty_clipboard_aborts_silently (cfg : Config) (saveDir : string) (w : World) :
  (wClipboard w = Ok "" \/ exists msg, wClipboard w = Err msg) ->
  savePipeline Join cfg saveDir w = emit EvClipboardRead w /\
  wFiles (savePipeline Join cfg saveDir w) = wFiles w /\
  wTrace (savePipeline Join cfg saveDir w) = wTrace w ++ [EvClipboardRead] /\
  forall w0 w1 w2,
    loadConfig Join Dir w0 = (cfg, false, false, w1) ->
    updateRegistry w1 = (None, w2) ->
    resolveSaveDir cfg w2 = (saveDir, w) ->
    saveDir <> "" ->
    main Join Dir w0 = emit EvClipboardRead w.
Proof.
  intros H.
  assert (E : savePipeline Join cfg saveDir w = emit EvClipboardRead w).
  { unfold savePipeline, clipboard_ReadAll.
    destruct H as [-> | [msg ->]]; reflexivity. }
  rewrite E. repeat split; [now destruct w..|].
  intros w0 w1 w2 Hl Hr Hs Hne. unfold main.
  rewrite Hl. simpl. rewrite Hr, Hs.
  destruct (String.eqb_spec saveDir ""); [contradiction | exact E].
Qed.

(** C8. Without a command-line argument, with auto-save enabled and the
    configured default directory present, the save directory is the
    configured default and the world is untouched: no folder prompt is shown.
    The run then goes on to the Save Pipeline with that directory. *)
Theorem autosave_uses_default_without_prompt (cfg : Config) (w : World) :
  length (wArgs w) <= 1 ->
  AutoSave cfg = true ->
  pathExists w (StartDir cfg) = true ->
  resolveSaveDir cfg w = (StartDir cfg, w) /\
  forall w0 w1,
    loadConfig Join Dir w0 = (cfg, false, false, w1) ->
    updateRegistry w1 = (None, w) ->
    StartDir cfg <> "" ->
    main Join Dir w0 = savePipeline Join cfg (StartDir cfg) w.
Proof.
  intros Hargs Hauto Hex.
  assert (E : resolveSaveDir cfg w = (StartDir cfg, w)).
  { unfold resolveSaveDir. rewrite Hauto, Hex.
    destruct (wArgs w) as [|a0 [|a1 rest]]; simpl in Hargs; [reflexivity..|lia]. }
  split; [exact E|].
  intros w0 w1 Hl Hr Hne. unfold main. rewrite Hl. simpl. rewrite Hr, E.
  destruct (String.eqb_spec (StartDir cfg) ""); [contradiction | reflexivity].
Qed.

(** C2. A run whose configuration load is not cancelled and whose registry
    refresh succeeds goes on to resolve the save directory and to the Save
    Pipeline exactly when it is not a first run; on a first run, that is when
    no configuration file existed and the wizard has just completed, line 50
    ends the run right after the registry refresh. *)
Theorem first_run_ends_after_registry_refresh
    (w w1 w2 : World) (cfg : Config) (isFirstRun : bool) :
  loadConfig Join Dir w = (cfg, false, isFirstRun, w1) ->
  updateRegistry w1 = (None, w2) ->
  isFirstRun = negb (pathExists w (configPath Join Dir w)) /\
  main Join Dir w =
    if isFirstRun then w2
    else
      let '(saveDir, w3) := resolveSaveDir cfg w2 in
      if String.eqb saveDir "" then w3 else savePipeline Join cfg saveDir w3.
Proof.
  intros Hl Hr. split.
  - unfold loadConfig in Hl.
    destruct (pathExists w (configPath Join Dir w)); simpl in Hl.
    + destruct (wOpenErr w _); [now inversion Hl|].
      destruct (wFiles w !! _); now inversion Hl.
    + destruct (runSetupWizard Join _ w) as [[c b] w']. now inversion Hl.
  - unfold main. rewrite Hl. simpl. rewrite Hr. reflexivity.
Qed.

(** *** Summaries of the functions that branch on an answer *)

Lemma os_WriteFile_eq (path content : string) env files dirs trace :
  os_WriteFile path content (mkWorld env files dirs trace) =
  (envWriteErr env path,
   mkWorld env
     (match envWriteErr env path with
      | Some _ => files
      | None => <[path := content]> files
      end)
     dirs (trace ++ [EvWriteFile path content])).
Proof. unfold os_WriteFile. step. now destruct (envWriteErr env path). Qed.

Lemma saveConfigToFile_eq (path : string) (cfg : Config) env files dirs trace :
  saveConfigToFile path cfg (mkWorld env files dirs trace) =
  mkWorld env
    (match envWriteErr env path with
     | Some _ => files
     | None => <[path := configFileContent cfg]> files
     end)
    dirs (trace ++ [EvWriteFile path (configFileContent cfg)]).
Proof. unfold saveConfigToFile. now rewrite os_WriteFile_eq. Qed.

Lemma createDesktopShortcut_eq env files dirs trace :
  exists err evs,
    createDesktopShortcut Join (mkWorld env files dirs trace)
      = (err, mkWorld env files dirs (trace ++ evs)) /\
    List.filter isWrite evs = [].
Proof.
  unfold createDesktopShortcut. step.
  repeat answer;
    first [ do 2 eexists; split; [reflexivity | reflexivity]
          | eexists; exists []; rewrite app_nil_r; split; reflexivity ].
Qed.

Lemma runGitCommit_eq (dir filename : string) env files dirs trace :
  exists res evs,
    runGitCommit dir filename (mkWorld env files dirs trace)
      = (res, mkWorld env files dirs (trace ++ evs)) /\
    List.filter isWrite evs = [].
Proof.
  unfold runGitCommit. step.
  repeat answer; rewrite <- ?app_assoc; cbn [app];
    first [ do 2 eexists; split; [reflexivity | reflexivity]
          | eexists; exists []; rewrite app_nil_r; split; reflexivity ].
Qed.

Lemma wizard_cancelled_eq (path : string) env files dirs trace :
  wizardCancelled (mkWorld env files dirs trace) = true ->
  exists evs,
    runSetupWizard Join path (mkWorld env files dirs trace)
      = (zeroConfig, true, mkWorld env files dirs (trace ++ evs)) /\
    List.filter isWrite evs = [].
Proof.
  intros Hc. unfold wizardCancelled in Hc. step in Hc.
  unfold runSetupWizard. step. revert Hc.
  repeat (answer; try (intros Hc; discriminate Hc)); intros _;
    rewrite <- ?app_assoc; cbn [app]; eexists; (split; [reflexivity|reflexivity]).
Qed.

Lemma wizard_completed (path : string) (w : World) (startDir ext prefix : string) :
  wBrowse w step1Title = Ok startDir ->
  wEntry w "Step 2: File Extension" = (ext, true) ->
  wEntry w "Step 3: Prefix Stripping" = (prefix, true) ->
  let newCfg :=
    mkConfig startDir ext prefix true
      (fst (wQuestion w step5Title)) (fst (wQuestion w step4Title)) in
  fst (runSetupWizard Join path w) = (newCfg, false) /\
  In (EvWriteFile path (configFileContent newCfg))
     (wTrace (snd (runSetupWizard Join path w))) /\
  (wWriteErr w path = None ->
     wFiles (snd (runSetupWizard Join path w)) !! path
       = Some (configFileContent newCfg)).
Proof.
  destruct w as [env files dirs trace]. intros Hb He Hp newCfg. subst newCfg.
  step in Hb. step in He. step in Hp.
  unfold runSetupWizard. step. rewrite Hb, He, Hp. cbv beta iota.
  destruct (envQuestion env step4Title) as [useGit e4].
  destruct (envQuestion env step5Title) as [autoSave e5].
  destruct (envQuestion env step6Title) as [shortcut e6].
  cbv beta iota. rewrite !saveConfigToFile_eq.
  split; [reflexivity|].
  destruct shortcut.
  - match goal with |- context [createDesktopShortcut Join (mkWorld ?e ?f ?d ?t)] =>
      destruct (createDesktopShortcut_eq e f d t) as (err & evs & -> & _) end.
    destruct err; step; (split; [find_event|]); intros ->; apply lookup_insert_eq.
  - step. split; [find_event|]. intros ->. apply lookup_insert_eq.
Qed.

(** C3. Cancelling the folder selection, the extension entry or the prefix
    entry aborts the wizard: it returns the zero configuration and the
    cancelled flag, writes no file, and the run ends with the wizard.  The
    three yes/no questions cannot be cancelled: whatever they answer, error
    included, the wizard completes, builds the configuration from the answers
    and writes it to the configuration file. *)
Theorem wizard_cancel_aborts_without_writing (path : string) (w : World) :
  (wizardCancelled w = true ->
     fst (runSetupWizard Join path w) = (zeroConfig, true) /\
     wFiles (snd (runSetupWizard Join path w)) = wFiles w /\
     List.filter isWrite (wTrace (snd (runSetupWizard Join path w)))
       = List.filter isWrite (wTrace w) /\
     (pathExists w (configPath Join Dir w) = false ->
        main Join Dir w = snd (runSetupWizard Join (configPath Join Dir w) w))) /\
  (forall startDir ext prefix,
     wBrowse w step1Title = Ok startDir ->
     wEntry w "Step 2: File Extension" = (ext, true) ->
     wEntry w "Step 3: Prefix Stripping" = (prefix, true) ->
     let newCfg :=
       mkConfig startDir ext prefix true
         (fst (wQuestion w step5Title)) (fst (wQuestion w step4Title)) in
     fst (runSetupWizard Join path w) = (newCfg, false) /\
     In (EvWriteFile path (configFileContent newCfg))
        (wTrace (snd (runSetupWizard Join path w))) /\
     (wWriteErr w path = None ->
        wFiles (snd (runSetupWizard Join path w)) !! path
          = Some (configFileContent newCfg))).
Proof.
  split; [|apply wizard_completed].
  destruct w as [env files dirs trace]. intros Hc.
  destruct (wizard_cancelled_eq path _ _ _ _ Hc) as (evs & E & Hw).
  rewrite E. repeat split.
  - cbn [snd wTrace]. now rewrite List.filter_app, Hw, app_nil_r.
  - intros Hex. unfold main, loadConfig. rewrite Hex.
    destruct (wizard_cancelled_eq (configPath Join Dir (mkWorld env files dirs trace))
                _ _ _ _ Hc) as (evs' & -> & _).
    reflexivity.
Qed.

Lemma firstLineOf_empty : firstLineOf "" = "".
Proof. vm_compute. reflexivity. Qed.

Lemma sliceFrom_all (s : string) : sliceFrom (String.length s) s = "".
Proof. induction s as [|c s IH]; [reflexivity | exact IH]. Qed.

(** C10. The empty-name test of line 86 looks at the first line before the
    prefix is removed.  When that line is not empty but nothing is left of it
    once the prefix is removed and the rest trimmed (in particular when the
    line is the first candidate it starts with), the pipeline goes on: the
    file name is the configured extension alone and the clipboard content is
    written under it in the save directory. *)
Theorem name_emptied_by_prefix_is_still_written
    (cfg : Config) (saveDir content : string) (w : World) :
  wClipboard w = Ok content ->
  firstLineOf content <> "" ->
  strings_TrimSpace (filenameRawOf cfg (firstLineOf content)) = "" ->
  safeFilenameOf cfg (firstLineOf content) = Extension cfg /\
  (exists later,
     wTrace (savePipeline Join cfg saveDir w) =
       wTrace w ++ [EvClipboardRead; EvWriteFile (Join [saveDir; Extension cfg]) content]
       ++ later) /\
  (wWriteErr w (Join [saveDir; Extension cfg]) = None ->
     wFiles (savePipeline Join cfg saveDir w) !! Join [saveDir; Extension cfg]
       = Some content) /\
  (forall firstLine,
     firstMatch firstLine (strings_Split (PrefixToStrip cfg) "|") = Some firstLine ->
     strings_TrimSpace (filenameRawOf cfg firstLine) = "").
Proof.
  intros Hclip Hfirst Hempty.
  assert (Hsafe : safeFilenameOf cfg (firstLineOf content) = Extension cfg).
  { unfold safeFilenameOf, baseNameOf. rewrite Hempty. reflexivity. }
  split; [exact Hsafe|].
  assert (Hcontent : String.eqb content "" = false).
  { apply String.eqb_neq. intros ->. apply Hfirst, firstLineOf_empty. }
  apply String.eqb_neq in Hfirst.
  split; [|split].
  - destruct w as [env files dirs trace]. step in Hclip.
    unfold savePipeline. step. rewrite Hclip. cbv beta iota.
    rewrite Hcontent, Hfirst, Hsafe, os_WriteFile_eq.
    destruct (envWriteErr env _) as [err|]; step.
    + eexists. rewrite <- !app_assoc. cbn [app]. reflexivity.
    + destruct (GitAutoCommit cfg).
      * match goal with |- context [runGitCommit ?a ?b (mkWorld ?e ?f ?d ?t)] =>
          destruct (runGitCommit_eq a b e f d t) as (res & evs & -> & _) end.
        destruct res, (ShowSuccess cfg); step;
          eexists; rewrite <- !app_assoc; cbn [app]; reflexivity.
      * destruct (ShowSuccess cfg); step;
          eexists; rewrite <- !app_assoc; cbn [app]; reflexivity.
  - destruct w as [env files dirs trace]. step in Hclip. intros Hw. step in Hw.
    unfold savePipeline. step. rewrite Hclip. cbv beta iota.
    rewrite Hcontent, Hfirst, Hsafe, os_WriteFile_eq, Hw.
    destruct (GitAutoCommit cfg).
    + match goal with |- context [runGitCommit ?a ?b (mkWorld ?e ?f ?d ?t)] =>
        destruct (runGitCommit_eq a b e f d t) as (res & evs & -> & _) end.
      destruct res, (ShowSuccess cfg); step; apply lookup_insert_eq.
    + destruct (ShowSuccess cfg); step; apply lookup_insert_eq.
  - intros firstLine Hm. rewrite filenameRawOf_firstMatch, Hm, sliceFrom_all.
    reflexivity.
Qed.

End ProgramProperties.

#[local] Arguments String.append : simpl nomatch.

(** ** Config Store: the scanner *)

Lemma scanLines_line (acc l rest : string) :
  hasByte byte_nl l = false ->
  scanLines acc (l +:+ String byte_nl rest) = scanToken (acc +:+ l) (scanLines "" rest).
Proof.
  revert acc. induction l as [|c l IH]; intros acc H; simpl in *.
  - now rewrite sapp_nil_r.
  - apply orb_false_iff in H as [Hc Hl]. rewrite Hc, (IH _ Hl), sapp_assoc. reflexivity.
Qed.

Lemma scan_unlines (ls : list string) :
  Forall (fun l => hasByte byte_nl l = false) ls ->
  bufio_Scanner (unlines ls) = foldr scanToken [] ls.
Proof.
  unfold bufio_Scanner. induction 1 as [|l ls Hl _ IH]; [reflexivity|].
  change (unlines (l :: ls)) with (l +:+ String byte_nl (unlines ls)).
  now rewrite (scanLines_line "" l _ Hl), IH.
Qed.

Lemma scanToken_fits (line : string) (later : list string) :
  (N.of_nat (String.length line) < MaxScanTokenSize)%N ->
  scanToken line later = dropCR line :: later.
Proof.
  intros H. unfold scanToken.
  destruct (N.leb_spec MaxScanTokenSize (N.of_nat (String.length line))); [lia | reflexivity].
Qed.

(** ** Config Store: one line *)



(** A word that holds no [sep] starts [a ++ sep ++ b] exactly when it
    starts [a]. *)
Lemma HasPrefix_sep (sep : ascii) (a b w : string) :
  w <> "" -> hasByte sep w = false ->
  strings_HasPrefix (a +:+ String sep b) w = strings_HasPrefix a w.
Proof.
  revert a. induction w as [|c w IH]; intros a Hne Hw; [contradiction|].
  simpl in Hw. apply orb_false_iff in Hw as [Hc Hw].
  destruct a as [|d a]; simpl.
  - rewrite Ascii.eqb_sym, Hc. reflexivity.
  - destruct w as [|c' w']; [reflexivity|].
    rewrite IH; [reflexivity | discriminate | exact Hw].
Qed.











Lemma configLine_lineAssign (cfg : Config) (text : string) :
  configLine cfg text =
  match lineAssign text with
  | Some (key, val) => configKey cfg key val
  | None => cfg
  end.
Proof.
  unfold configLine, lineAssign.
  destruct (_ || _); [reflexivity|].
  destruct (strings_SplitN _ _ _) as [|k [|v [|x l]]]; reflexivity.
Qed.





Ltac other_key H :=
  unfold configKey;
  repeat match goal with
  | |- context [String.eqb ?key ?k] =>
      destruct (String.eqb_spec key k) as [->|_]
  end; try reflexivity; exfalso; apply H; reflexivity.

Lemma configKey_other (cfg : Config) (key val : string) :
  (key <> "startdir" -> StartDir (configKey cfg key val) = StartDir cfg) /\
  (key <> "extension" -> Extension (configKey cfg key val) = Extension cfg) /\
  (key <> "prefixtostrip" -> PrefixToStrip (configKey cfg key val) = PrefixToStrip cfg) /\
  (key <> "showsuccessmessage" -> ShowSuccess (configKey cfg key val) = ShowSuccess cfg) /\
  (key <> "autosave" -> AutoSave (configKey cfg key val) = AutoSave cfg) /\
  (key <> "gitautocommit" -> GitAutoCommit (configKey cfg key val) = GitAutoCommit cfg).
Proof. repeat split; intros H; other_key H. Qed.

(** A field keeps its value across the lines that do not assign its key. *)
Lemma unassigned_field_kept {A : Type} (field : Config -> A) (key : string) :
  (forall cfg k val, k <> key -> field (configKey cfg k val) = field cfg) ->
  forall lines cfg,
    existsb (assigns key) lines = false ->
    field (fold_left configLine lines cfg) = field cfg.
Proof.
  intros Hother lines. induction lines as [|text lines IH]; intros cfg H; [reflexivity|].
  simpl in *. apply orb_false_iff in H as [Ht Hl]. rewrite (IH _ Hl).
  rewrite configLine_lineAssign. unfold assigns in Ht.
  destruct (lineAssign text) as [[k v]|]; [|reflexivity].
  apply Hother. now apply String.eqb_neq.
Qed.




(** ** Config Store: round trip *)

Lemma scan_fits (ls : list string) :
  Forall (fun l => (N.of_nat (String.length l) < MaxScanTokenSize)%N) ls ->
  foldr scanToken [] ls = List.map dropCR ls.
Proof.
  induction 1 as [|l ls Hl _ IH]; simpl; [reflexivity|].
  now rewrite IH, scanToken_fits.
Qed.












(** The prefix set the wizard proposes ends with a space, which the file
    does not keep. *)
Fact wizard_default_prefix_loses_its_last_space :
  PrefixToStrip (parseConfig (configFileContent wizardCfg)) = "void |int |string".
Proof. vm_compute. reflexivity. Qed.

(** ** Runs on the sample machine *)

(** C2 does not hold of a first run: the wizard completes, the registry
    refresh succeeds, and the run ends there, without a folder prompt and
    without reading the clipboard, where the Save Pipeline would have written
    a file. *)
Lemma first_run_never_reaches_pipeline :
  fst (loadConfig sampleJoin sampleDir firstRunWorld) = (wizardCfg, false, true) /\
  fst (updateRegistry (snd (loadConfig sampleJoin sampleDir firstRunWorld))) = None /\
  main sampleJoin sampleDir firstRunWorld
    = snd (updateRegistry (snd (loadConfig sampleJoin sampleDir firstRunWorld))) /\
  existsb isClipboardRead (wTrace (main sampleJoin sampleDir firstRunWorld)) = false /\
  existsb isWrite
    (wTrace (savePipeline sampleJoin wizardCfg "C:\repo"
               (snd (updateRegistry (snd (loadConfig sampleJoin sampleDir firstRunWorld))))))
    = true /\
  wFiles (main sampleJoin sampleDir firstRunWorld) !! "C:\repo\foo(){}.dg" = None.
Proof. repeat split; vm_compute; reflexivity. Qed.

(** C2 on a later run of the sample machine: the run reaches the pipeline. *)
Lemma first_run_ends_after_registry_refresh_witness :
  main sampleJoin sampleDir laterRunWorld =
  savePipeline sampleJoin autoCfg "C:\repo"
    (snd (updateRegistry (snd (loadConfig sampleJoin sampleDir laterRunWorld)))).
Proof.
  refine (eq_trans
    (proj2 (first_run_ends_after_registry_refresh sampleJoin sampleDir laterRunWorld
              (snd (loadConfig sampleJoin sampleDir laterRunWorld))
              (snd (updateRegistry (snd (loadConfig sampleJoin sampleDir laterRunWorld))))
              autoCfg false _ _)) _);
    vm_compute; reflexivity.
Defined.

(** C3 does not hold of the yes/no questions: a question that is dismissed,
    or that fails, counts as a no; the wizard completes and writes the file. *)
Lemma dismissed_questions_do_not_abort :
  let w := withQuestion (fun _ => (false, Some "dialog closed")) firstRunWorld in
  fst (runSetupWizard sampleJoin sampleCfgPath w) = (wizardCfg, false) /\
  wFiles (snd (runSetupWizard sampleJoin sampleCfgPath w)) !! sampleCfgPath
    = Some (configFileContent wizardCfg).
Proof. split; vm_compute; reflexivity. Qed.

(** C3 on the sample machine when the folder dialog is cancelled. *)
Lemma wizard_cancel_aborts_without_writing_witness :
  let w := withBrowse (fun _ => Err "Cancelled") firstRunWorld in
  fst (runSetupWizard sampleJoin sampleCfgPath w) = (zeroConfig, true) /\
  wFiles (snd (runSetupWizard sampleJoin sampleCfgPath w)) = wFiles w.
Proof.
  intros w.
  destruct (proj1 (wizard_cancel_aborts_without_writing sampleJoin sampleDir sampleCfgPath w))
    as (H1 & H2 & _); [vm_compute; reflexivity|].
  split; [exact H1 | exact H2].
Defined.

(** C7 on the sample machine with an empty clipboard. *)
Lemma empty_clipboard_aborts_silently_witness :
  let w := withClipboard (Ok "") laterRunWorld in
  wTrace (savePipeline sampleJoin autoCfg "C:\repo" w) = wTrace w ++ [EvClipboardRead].
Proof.
  intros w.
  refine (proj1 (proj2 (proj2
    (empty_clipboard_aborts_silently sampleJoin sampleDir autoCfg "C:\repo" w _)))).
  left. reflexivity.
Defined.

(** C8 on the sample machine, whose default directory exists. *)
Lemma autosave_uses_default_without_prompt_witness :
  resolveSaveDir autoCfg laterRunWorld = ("C:\repo", laterRunWorld).
Proof.
  refine (proj1 (autosave_uses_default_without_prompt sampleJoin sampleDir autoCfg
                   laterRunWorld _ _ _)).
  - vm_compute. lia.
  - reflexivity.
  - vm_compute. reflexivity.
Defined.

(** C10 on the sample machine: the clipboard holds the third candidate. *)
Lemma name_emptied_by_prefix_is_still_written_witness :
  let w := withClipboard (Ok "string") laterRunWorld in
  safeFilenameOf autoCfg (firstLineOf "string") = ".dg" /\
  wFiles (savePipeline sampleJoin autoCfg "C:\repo" w) !! "C:\repo\.dg" = Some "string".
Proof.
  intros w.
  destruct (name_emptied_by_prefix_is_still_written sampleJoin autoCfg "C:\repo" "string" w)
    as (H1 & _ & H3 & _).
  - reflexivity.
  - vm_compute. discriminate.
  - vm_compute. reflexivity.
  - split; [exact H1 | apply H3; reflexivity].
Defined.


(** ** Further facts *)

Lemma scanToken_long (line : string) (later : list string) :
  (MaxScanTokenSize <= N.of_nat (String.length line))%N -> scanToken line later = [].
Proof.
  intros H. unfold scanToken.
  destruct (N.leb_spec MaxScanTokenSize (N.of_nat (String.length line))); [reflexivity | lia].
Qed.

(** A start directory whose line does not fit the buffer stops the scanner:
    every later key of the file is lost and the defaults are loaded. *)
Fact long_line_stops_the_scanner (cfg : Config) :
  hasByte byte_nl (StartDir cfg) = false ->
  (MaxScanTokenSize <= N.of_nat (String.length ("StartDir=" +:+ StartDir cfg)))%N ->
  parseConfig (configFileContent cfg) = defaultConfig.
Proof.
  intros Hn Hlong. unfold parseConfig, configFileContent, bufio_Scanner.
  repeat match goal with
  | |- context [unlines (?l :: ?ls)] =>
      change (unlines (l :: ls)) with (l +:+ String byte_nl (unlines ls));
      rewrite (scanLines_line "" l) by first [exact Hn | reflexivity]
  end.
  cbn [String.append]. rewrite (scanToken_long _ _ Hlong). reflexivity.
Qed.

Example TrimSpace_unicode :
  strings_TrimSpace ("  void foo(){} " +:+ bytes [9; 13; 194; 160]) = "void foo(){}".
Proof. vm_compute. reflexivity. Qed.

Example TrimSpace_stray_byte : strings_TrimSpace (bytes [160; 32]) = bytes [160].
Proof. vm_compute. reflexivity. Qed.

Example SplitN_first_equals : strings_SplitN "a=b=c" "=" 2 = ["a"; "b=c"].
Proof. reflexivity. Qed.

Example ToLower_dotted_I :
  strings_ToLower ("StartD" +:+ bytes [196; 176] +:+ "R") = "startdir".
Proof. reflexivity. Qed.

Example Scanner_lines :
  bufio_Scanner ("a" +:+ String byte_cr nl +:+ nl +:+ "b") = ["a"; ""; "b"].
Proof. reflexivity. Qed.

Example quoted_prefix_keeps_its_space :
  PrefixToStrip (parseConfig ("PrefixToStrip=" +:+ dq +:+ "void |int " +:+ dq))
  = "void |int ".
Proof. vm_compute. reflexivity. Qed.

Example scenario_int_main :
  wFiles (main sampleJoin sampleDir
            (withClipboard (Ok ("int main(){}" +:+ nl +:+ "body"))
               (withConfig (configFileContent wizardCfg) firstRunWorld)))
    !! "C:\repo\main(){}.dg"
  = Some ("int main(){}" +:+ nl +:+ "body").
Proof. vm_compute. reflexivity. Qed.


(** * Further properties of the code *)

#[local] Arguments String.append : simpl nomatch.

(** The scanner of loadConfig on the sample configuration with the long
    start directory. *)
Lemma long_line_stops_the_scanner_witness :
  parseConfig (configFileContent longDirCfg) = defaultConfig.
Proof.
  apply (long_line_stops_the_scanner longDirCfg); vm_compute; [reflexivity | discriminate].
Defined.

(** ** sanitizeFilename *)

Lemma mapBytes_length (f : ascii -> ascii) (s : string) :
  String.length (mapBytes f s) = String.length s.
Proof. induction s as [|c s IH]; simpl; [reflexivity | now rewrite IH]. Qed.

Lemma existsb_orb {A : Type} (f g : A -> bool) (l : list A) :
  existsb (fun x => f x || g x) l = existsb f l || existsb g l.
Proof.
  induction l as [|x l IH]; simpl; [reflexivity|]. rewrite IH.
  destruct (f x), (g x), (existsb f l), (existsb g l); reflexivity.
Qed.

Lemma hasIllegal_cons (c : ascii) (s : string) :
  hasIllegal (String c s) = isIllegal c || hasIllegal s.
Proof.
  unfold hasIllegal, isIllegal.
  exact (existsb_orb (Ascii.eqb c) (fun x => hasByte x s) illegalChars).
Qed.

Lemma sanitizeByte_fixed (c : ascii) : sanitizeByte c = c <-> isIllegal c = false.
Proof.
  assert (E : forall c, Bool.eqb (Ascii.eqb (sanitizeByte c) c) (negb (isIllegal c)) = true).
  { apply all_bytes. vm_compute. reflexivity. }
  specialize (E c). apply Bool.eqb_prop in E. rewrite <- Ascii.eqb_eq, E.
  now destruct (isIllegal c).
Qed.

Lemma sanitizeByte_idem (c : ascii) : sanitizeByte (sanitizeByte c) = sanitizeByte c.
Proof.
  apply Ascii.eqb_eq. revert c. apply all_bytes. vm_compute. reflexivity.
Qed.

(** sanitizeFilename keeps the length of the name, changes nothing when
    applied again, and leaves a name as it is exactly when the name holds none
    of the nine characters. *)
Theorem sanitizeFilename_keeps_clean_names (name : string) :
  String.length (sanitizeFilename name) = String.length name /\
  sanitizeFilename (sanitizeFilename name) = sanitizeFilename name /\
  (sanitizeFilename name = name <-> hasIllegal name = false).
Proof.
  rewrite !sanitizeFilename_map. split; [apply mapBytes_length|]. split.
  - rewrite mapBytes_compose. apply mapBytes_ext, sanitizeByte_idem.
  - induction name as [|c s IH]; simpl; [now split|].
    rewrite hasIllegal_cons, orb_false_iff, <- IH, <- sanitizeByte_fixed.
    split; [intros [= H1 H2]; now split | intros [-> ->]; reflexivity].
Qed.

(** ** The first line of the clipboard *)

Lemma Split_nonempty (s : string) (sep : ascii) : strings_Split s sep <> [].
Proof.
  destruct s as [|c s]; simpl; [discriminate|].
  destruct (Ascii.eqb c sep); [discriminate|].
  destruct (strings_Split s sep); discriminate.
Qed.

Lemma Split_head (l rest : string) (sep : ascii) :
  hasByte sep l = false ->
  nth 0 (strings_Split (l +:+ String sep rest) sep) "" = l.
Proof.
  induction l as [|c l IH]; intros H; simpl in *.
  - now rewrite Ascii.eqb_refl.
  - apply orb_false_iff in H as [Hc Hl]. rewrite Hc. specialize (IH Hl).
    destruct (strings_Split (l +:+ String sep rest) sep) as [|h t] eqn:E.
    + now apply Split_nonempty in E.
    + simpl in *. now rewrite IH.
Qed.

Lemma Split_whole (l : string) (sep : ascii) :
  hasByte sep l = false -> strings_Split l sep = [l].
Proof.
  induction l as [|c l IH]; intros H; simpl in *; [reflexivity|].
  apply orb_false_iff in H as [Hc Hl]. now rewrite Hc, (IH Hl).
Qed.

Lemma Split_head_clean (s : string) (sep : ascii) :
  hasByte sep (nth 0 (strings_Split s sep) "") = false.
Proof.
  induction s as [|c s IH]; simpl; [reflexivity|].
  destruct (Ascii.eqb c sep) eqn:Hc; [reflexivity|].
  destruct (strings_Split s sep) as [|h t]; simpl in *; now rewrite Hc.
Qed.

Lemma ReplaceAll_removes (s : string) (old : ascii) :
  hasByte old (strings_ReplaceAll s old "") = false.
Proof.
  induction s as [|c s IH]; simpl; [reflexivity|].
  destruct (Ascii.eqb c old) eqn:Hc; simpl; [exact IH | now rewrite Hc].
Qed.

Lemma ReplaceAll_keeps_absent (s : string) (old c : ascii) :
  hasByte c s = false -> hasByte c (strings_ReplaceAll s old "") = false.
Proof.
  induction s as [|d s IH]; simpl; [reflexivity|]. intros H.
  apply orb_false_iff in H as [Hd Hs].
  destruct (Ascii.eqb d old); simpl; [now apply IH | now rewrite Hd, IH].
Qed.

Lemma trimLeft_keeps_absent (ws : list string) (c : ascii) (s : string) :
  hasByte c s = false -> hasByte c (trimLeft ws s) = false.
Proof.
  intros H. destruct (trimLeftLoop_suffix ws (String.length s) s) as (x & Hx).
  rewrite Hx, hasByte_app in H. now apply orb_false_iff in H as [_ H].
Qed.

Lemma trimRight_keeps_absent (ws : list string) (c : ascii) (s : string) :
  hasByte c s = false -> hasByte c (trimRight ws s) = false.
Proof.
  intros H. destruct (trimRight_prefix ws s) as (x & Hx).
  rewrite Hx, hasByte_app in H. now apply orb_false_iff in H as [H _].
Qed.

Lemma TrimSpace_keeps_absent (c : ascii) (s : string) :
  hasByte c s = false -> hasByte c (strings_TrimSpace s) = false.
Proof. intros H. now apply trimRight_keeps_absent, trimLeft_keeps_absent. Qed.

Lemma sliceFrom_keeps_absent (c : ascii) (n : nat) (s : string) :
  hasByte c s = false -> hasByte c (sliceFrom n s) = false.
Proof.
  revert s. induction n as [|n IH]; intros s H; [now destruct s|].
  destruct s as [|d s]; [reflexivity|]. simpl in *.
  apply orb_false_iff in H as [_ H]. now apply IH.
Qed.

Lemma filenameRawOf_keeps_absent (cfg : Config) (c : ascii) (firstLine : string) :
  hasByte c firstLine = false -> hasByte c (filenameRawOf cfg firstLine) = false.
Proof.
  intros H. rewrite filenameRawOf_firstMatch.
  destruct (firstMatch _ _); [now apply sliceFrom_keeps_absent | exact H].
Qed.

Lemma sanitize_keeps_absent (c : ascii) (s : string) :
  isIllegal c = false -> c <> "_"%char ->
  hasByte c s = false -> hasByte c (sanitizeFilename s) = false.
Proof.
  intros Hc Hu H. rewrite sanitizeFilename_map.
  induction s as [|d s IH]; simpl in *; [reflexivity|].
  apply orb_false_iff in H as [Hd Hs]. rewrite (IH Hs), orb_false_r.
  unfold sanitizeByte. destruct (isIllegal d); [|exact Hd].
  apply Ascii.eqb_neq. intros E. now apply Hu.
Qed.

(** The name is built from the text before the first line feed alone: what
    follows it in the clipboard plays no part. *)
Theorem only_the_first_line_names_the_file (l rest : string) (cfg : Config) :
  hasByte byte_nl l = false ->
  firstLineOf (l +:+ nl +:+ rest) = firstLineOf l /\
  safeFilenameOf cfg (firstLineOf (l +:+ nl +:+ rest)) = safeFilenameOf cfg (firstLineOf l).
Proof.
  intros H.
  assert (E : firstLineOf (l +:+ nl +:+ rest) = firstLineOf l).
  { unfold firstLineOf. change (nl +:+ rest) with (String byte_nl rest).
    now rewrite (Split_head l rest byte_nl H), (Split_whole l byte_nl H). }
  now rewrite E.
Qed.

Lemma only_the_first_line_names_the_file_witness :
  safeFilenameOf autoCfg (firstLineOf ("void foo(){}" +:+ nl +:+ "body"))
  = safeFilenameOf autoCfg (firstLineOf "void foo(){}").
Proof.
  refine (proj2 (only_the_first_line_names_the_file "void foo(){}" "body" autoCfg _)).
  reflexivity.
Defined.

(** The first line the name is built from holds no line feed and no carriage
    return and has no white space at either end; the same holds of the
    sanitised name before the extension. *)
Theorem derived_name_has_no_line_break (cfg : Config) (content : string) :
  let firstLine := firstLineOf content in
  hasByte byte_nl firstLine = false /\
  hasByte byte_cr firstLine = false /\
  strings_TrimSpace firstLine = firstLine /\
  hasByte byte_nl (baseNameOf cfg firstLine) = false /\
  hasByte byte_cr (baseNameOf cfg firstLine) = false.
Proof.
  intros firstLine.
  assert (Hn : hasByte byte_nl firstLine = false).
  { apply TrimSpace_keeps_absent, ReplaceAll_keeps_absent, Split_head_clean. }
  assert (Hr : hasByte byte_cr firstLine = false).
  { apply TrimSpace_keeps_absent, ReplaceAll_removes. }
  split; [exact Hn|]. split; [exact Hr|]. split; [apply TrimSpace_idem|].
  unfold baseNameOf. split.
  - apply sanitize_keeps_absent; [reflexivity | discriminate |].
    now apply TrimSpace_keeps_absent, filenameRawOf_keeps_absent.
  - apply sanitize_keeps_absent; [reflexivity | discriminate |].
    now apply TrimSpace_keeps_absent, filenameRawOf_keeps_absent.
Qed.

(** ** loadConfig: repeated keys, carriage returns *)

Lemma configKey_sets (cfg : Config) (val : string) :
  StartDir (configKey cfg "startdir" val) = val /\
  Extension (configKey cfg "extension" val) = val /\
  PrefixToStrip (configKey cfg "prefixtostrip" val) = strings_Trim val byte_dq.
Proof. repeat split. Qed.

(** When a key is assigned more than once the last assignment wins. *)
Theorem last_assignment_of_a_key_wins
    (content : string) (before after : list string) (text key val : string) :
  bufio_Scanner content = (before ++ text :: after)%list ->
  lineAssign text = Some (key, val) ->
  existsb (assigns key) after = false ->
  (key = "startdir" -> StartDir (parseConfig content) = val) /\
  (key = "extension" -> Extension (parseConfig content) = val) /\
  (key = "prefixtostrip" -> PrefixToStrip (parseConfig content) = strings_Trim val byte_dq) /\
  (key = "showsuccessmessage" -> ShowSuccess (parseConfig content) = String.eqb val "true") /\
  (key = "autosave" -> AutoSave (parseConfig content) = String.eqb val "true") /\
  (key = "gitautocommit" -> GitAutoCommit (parseConfig content) = String.eqb val "true").
Proof.
  intros Hs Ha Hafter. unfold parseConfig. rewrite Hs, fold_left_app. simpl.
  repeat split; intros ->;
    (rewrite unassigned_field_kept with (key := ltac:(
       match type of Hafter with existsb (assigns ?k) _ = _ => exact k end));
     [ now rewrite configLine_lineAssign, Ha
     | intros c k v Hk; now apply configKey_other
     | exact Hafter ]).
Qed.

Lemma last_assignment_of_a_key_wins_witness :
  Extension (parseConfig ("Extension=.txt" +:+ nl +:+ "# again" +:+ nl +:+ "extension = .js" +:+ nl +:+ "AutoSave=true"))
  = ".js".
Proof.
  refine (proj1 (proj2 (last_assignment_of_a_key_wins _ ["Extension=.txt"; "# again"]
            ["AutoSave=true"] "extension = .js" "extension" ".js" _ _ _)) eq_refl);
    vm_compute; reflexivity.
Defined.

Lemma dropCR_app_cr (l : string) : dropCR (l +:+ String byte_cr "") = l.
Proof.
  unfold dropCR. rewrite srev_app. simpl. apply srev_involutive.
Qed.

Lemma dropCR_cases (l : string) :
  dropCR l = l \/ l = dropCR l +:+ String byte_cr "".
Proof.
  unfold dropCR. destruct (String.rev l) as [|c r] eqn:E; [now left|].
  destruct (Ascii.eqb c byte_cr) eqn:Hc; [right | now left].
  apply Ascii.eqb_eq in Hc. subst c.
  rewrite <- (srev_involutive l), E, srev_cons. reflexivity.
Qed.

Lemma trimRight_app_cr (s : string) :
  trimRight spaceRunes (s +:+ String byte_cr "") = trimRight spaceRunes s.
Proof.
  unfold trimRight, trimLeft. rewrite srev_app. simpl. reflexivity.
Qed.

(** A word of one byte, or a word without [sep], starts [a ++ sep] exactly
    when it starts the non-empty [a]. *)
Lemma HasPrefix_app_byte (sep : ascii) (a b w : string) :
  a <> "" -> w <> "" -> (hasByte sep w = false \/ String.length w = 1) ->
  strings_HasPrefix (a +:+ String sep b) w = strings_HasPrefix a w.
Proof.
  intros Ha Hw [H|H]; [now apply HasPrefix_sep|].
  destruct w as [|c [|d w]]; try discriminate. destruct a; [contradiction | reflexivity].
Qed.

Lemma sliceFrom_app_l (a b w : string) :
  strings_HasPrefix a w = true ->
  sliceFrom (String.length w) (a +:+ b) = sliceFrom (String.length w) a +:+ b.
Proof.
  revert a. induction w as [|c w IH]; intros a H; simpl in *; [now destruct a|].
  destruct a as [|d a]; [discriminate|]. apply andb_true_iff in H as [_ H]. simpl.
  now apply IH.
Qed.

Lemma stripLead_app_byte (sep : ascii) (ws : list string) (a b : string) :
  byteOrFree sep ws -> a <> "" ->
  stripLead ws (a +:+ String sep b) =
  option_map (fun r => r +:+ String sep b) (stripLead ws a).
Proof.
  intros Hws Ha. induction ws as [|w ws IH]; simpl; [reflexivity|].
  destruct (Hws w (or_introl eq_refl)) as [Hw Hf].
  rewrite HasPrefix_app_byte by assumption.
  destruct (strings_HasPrefix a w) eqn:E.
  - simpl. now rewrite sliceFrom_app_l.
  - apply IH. intros v Hv. apply Hws. now right.
Qed.

Lemma spaceRunes_cr : byteOrFree byte_cr spaceRunes.
Proof.
  intros w Hw.
  assert (E : forallb (fun w => negb (String.eqb w "")
                && (negb (hasByte byte_cr w) || (String.length w =? 1)%nat)) spaceRunes = true)
    by (vm_compute; reflexivity).
  rewrite forallb_forall in E. specialize (E w Hw).
  apply andb_true_iff in E as [E1 E2]. split.
  - intros ->. discriminate.
  - apply orb_true_iff in E2 as [E2|E2]; [left; now apply negb_true_iff|right].
    now apply Nat.eqb_eq.
Qed.

Lemma trimLeftLoop_app_cr (n : nat) (s : string) :
  String.length s <= n ->
  (trimLeftLoop spaceRunes n s <> "" ->
     trimLeftLoop spaceRunes (S n) (s +:+ String byte_cr "")
       = trimLeftLoop spaceRunes n s +:+ String byte_cr "") /\
  (trimLeftLoop spaceRunes n s = "" ->
     trimRight spaceRunes (trimLeftLoop spaceRunes (S n) (s +:+ String byte_cr "")) = "").
Proof.
  revert s. induction n as [|n IH]; intros s Hlen.
  - destruct s; [|simpl in Hlen; lia]. simpl. split; [intros H; now contradiction H|].
    intros _. vm_compute. reflexivity.
  - destruct s as [|c s].
    + split; [intros H; exfalso; apply H; reflexivity|]. intros _. vm_compute. reflexivity.
    + change (trimLeftLoop spaceRunes (S (S n)) (String c s +:+ String byte_cr ""))
        with (match stripLead spaceRunes (String c s +:+ String byte_cr "") with
              | Some r => trimLeftLoop spaceRunes (S n) r
              | None => String c s +:+ String byte_cr ""
              end).
      change (trimLeftLoop spaceRunes (S n) (String c s))
        with (match stripLead spaceRunes (String c s) with
              | Some r => trimLeftLoop spaceRunes n r
              | None => String c s
              end).
      rewrite (stripLead_app_byte byte_cr spaceRunes (String c s) "" spaceRunes_cr)
        by discriminate.
      destruct (stripLead spaceRunes (String c s)) as [r|] eqn:E; simpl.
      * apply IH. apply (stripLead_shorter _ _ _ spaceRunes_nonEmpty) in E.
        simpl in *. lia.
      * split; [reflexivity | discriminate].
Qed.

(** A carriage return at the end of a text does not survive the trim. *)
Lemma TrimSpace_app_cr (s : string) :
  strings_TrimSpace (s +:+ String byte_cr "") = strings_TrimSpace s.
Proof.
  unfold strings_TrimSpace, trimLeft. rewrite slength_app. simpl.
  replace (String.length s + 1) with (S (String.length s)) by lia.
  destruct (trimLeftLoop_app_cr (String.length s) s (le_n _)) as [H1 H2].
  destruct (trimLeftLoop spaceRunes (String.length s) s) as [|c r] eqn:E.
  - now rewrite H2.
  - rewrite H1 by discriminate. apply trimRight_app_cr.
Qed.

Lemma configLine_dropCR (cfg : Config) (text : string) :
  configLine cfg (dropCR text) = configLine cfg text.
Proof.
  destruct (dropCR_cases text) as [-> | E]; [reflexivity|].
  revert E. generalize (dropCR text). intros d ->.
  unfold configLine. now rewrite TrimSpace_app_cr.
Qed.

Lemma fold_configLine_dropCR (ls : list string) (cfg : Config) :
  fold_left configLine (List.map dropCR ls) cfg = fold_left configLine ls cfg.
Proof.
  revert cfg. induction ls as [|l ls IH]; intros cfg; simpl; [reflexivity|].
  now rewrite configLine_dropCR, IH.
Qed.

(** A configuration file whose lines end with a carriage return and a line
    feed loads the same configuration as the file whose lines end with a line
    feed, as long as its lines fit the buffer of the scanner. *)
Theorem crlf_file_loads_the_same (ls : list string) :
  Forall (fun l => hasByte byte_nl l = false /\
                   (N.of_nat (String.length l) + 1 < MaxScanTokenSize)%N) ls ->
  parseConfig (unlines (List.map (fun l => l +:+ String byte_cr "") ls))
  = parseConfig (unlines ls).
Proof.
  intros H. unfold parseConfig.
  rewrite !scan_unlines, !scan_fits.
  - rewrite List.map_map, fold_configLine_dropCR.
    rewrite (List.map_ext _ (fun l => l) dropCR_app_cr), List.map_id. reflexivity.
  - eapply List.Forall_impl; [|exact H]. intros l [_ Hl]. cbv beta. lia.
  - apply List.Forall_map. eapply List.Forall_impl; [|exact H]. intros l [_ Hl].
    cbv beta. rewrite slength_app. simpl. lia.
  - eapply List.Forall_impl; [|exact H]. now intros l [Hl _].
  - apply List.Forall_map. eapply List.Forall_impl; [|exact H]. intros l [Hl _].
    cbv beta. rewrite hasByte_app, Hl. reflexivity.
Qed.

Lemma crlf_file_loads_the_same_witness :
  parseConfig ("Extension=.txt" +:+ String byte_cr nl +:+ "AutoSave=true" +:+ String byte_cr nl)
  = parseConfig (unlines ["Extension=.txt"; "AutoSave=true"]).
Proof.
  refine (crlf_file_loads_the_same ["Extension=.txt"; "AutoSave=true"] _).
  repeat (apply List.Forall_cons; [split; vm_compute; reflexivity|]). apply List.Forall_nil.
Defined.

#[local] Arguments String.append : simpl never.

(** ** runGitCommit *)

Lemma runGitCommit_events (dir filename : string) env files dirs trace :
  snd (runGitCommit dir filename (mkWorld env files dirs trace))
  = mkWorld env files dirs (trace ++ gitEvents env dir filename).
Proof.
  unfold runGitCommit, gitEvents, gitAdd, gitCommit. step.
  repeat answer; cbn [snd] in *; subst;
    rewrite <- ?app_assoc, ?app_nil_r; try reflexivity; congruence.
Qed.


Lemma gitEvents_cases (env : Env) (dir filename : string) :
  (envLookPath env "git" = false /\ gitEvents env dir filename = []) \/
  (envLookPath env "git" = true /\
   (gitEvents env dir filename = [EvExec dir (gitAdd filename)] \/
    gitEvents env dir filename
      = [EvExec dir (gitAdd filename); EvExec dir (gitCommit filename)])).
Proof.
  unfold gitEvents. destruct (envLookPath env "git"); [right | left; now split].
  split; [reflexivity|]. destruct (snd (envExec env dir (gitAdd filename))); auto.
Qed.

Lemma git_step_events (cfg : Config) (env : Env) (dir name : string) :
  let g := if GitAutoCommit cfg then gitEvents env dir name else [] in
  (In (EvExec dir (gitAdd name)) g <->
     GitAutoCommit cfg = true /\ envLookPath env "git" = true) /\
  (forall e, In e g -> e = EvExec dir (gitAdd name) \/ e = EvExec dir (gitCommit name)).
Proof.
  destruct (GitAutoCommit cfg); cbv zeta.
  - destruct (gitEvents_cases env dir name) as [[L ->] | [L [-> | ->]]]; rewrite L;
      cbn [In]; intuition congruence.
  - cbn [In]. intuition congruence.
Qed.

(** ** updateRegistry and setMenuKey *)

Lemma setMenuKey_eq (key exe : string) (passArg : bool) env files dirs trace :
  setMenuKey (key) exe passArg (mkWorld env files dirs trace) =
  let full := key +:+ "\" +:+ AppName in
  let cmdStr := if passArg then folderCommand exe else backgroundCommand exe in
  match envRegCreateErr env full with
  | Some err => (Some err, mkWorld env files dirs (trace ++ [EvRegCreateKey full]))
  | None =>
      match envRegCreateErr env (commandOf full) with
      | Some err =>
          (Some err,
           mkWorld env files dirs
             (trace ++ [EvRegCreateKey full; EvRegSetString full "" AppName;
                        EvRegSetString full "Icon" "shell32.dll,259";
                        EvRegCreateKey (commandOf full)]))
      | None => (None, mkWorld env files dirs (trace ++ menuKeyEvents env full cmdStr))
      end
  end.
Proof.
  unfold setMenuKey, menuKeyEvents, commandOf, folderCommand, backgroundCommand. step.
  repeat answer; rewrite <- ?app_assoc; cbn [app]; try reflexivity; congruence.
Qed.

Lemma menuKeyEvents_registry (env : Env) (key cmdStr : string) :
  forallb isRegistry (menuKeyEvents env key cmdStr) = true /\
  (forall k, ~ In (EvRegDeleteKey k) (menuKeyEvents env key cmdStr)) /\
  List.filter isWrite (menuKeyEvents env key cmdStr) = [].
Proof.
  unfold menuKeyEvents. destruct (String.eqb _ cmdStr); cbn; repeat split;
    intros k H; repeat (destruct H as [H|H]; try discriminate); exact H.
Qed.

Lemma menuKeyEvents_set (env : Env) (key cmdStr k v : string) :
  In (EvRegSetString k "" v) (menuKeyEvents env key cmdStr) <->
  (k = key /\ v = AppName) \/
  (k = commandOf key /\ v = cmdStr /\ envRegValue env (commandOf key) <> cmdStr).
Proof.
  unfold menuKeyEvents.
  destruct (String.eqb_spec (envRegValue env (commandOf key)) cmdStr) as [E|E];
    cbn [app In]; split.
  - intros [H|[H|[H|[H|[]]]]]; try discriminate. injection H as <- <-. now left.
  - intros [[-> ->]|(_ & _ & H)]; [now right; left | contradiction].
  - intros [H|[H|[H|[H|[H|[]]]]]]; try discriminate.
    + injection H as <- <-. now left.
    + injection H as <- <-. now right.
  - intros [[-> ->]|(-> & -> & _)]; [now right; left | now do 4 right; left].
Qed.

Lemma updateRegistry_eq (exe : string) env files dirs trace :
  envExecutable env = Ok exe ->
  updateRegistry (mkWorld env files dirs trace) =
  let bg := menuKeyEvents env backgroundKey (backgroundCommand exe) in
  let fo := menuKeyEvents env folderKey (folderCommand exe) in
  let four key :=
    [EvRegCreateKey key; EvRegSetString key "" AppName;
     EvRegSetString key "Icon" "shell32.dll,259"; EvRegCreateKey (commandOf key)] in
  let out err evs := (err, mkWorld env files dirs (trace ++ evs)) in
  match envRegCreateErr env backgroundKey with
  | Some err => out (Some err) [EvRegCreateKey backgroundKey]
  | None =>
    match envRegCreateErr env (commandOf backgroundKey) with
    | Some err => out (Some err) (four backgroundKey)
    | None =>
      match envRegCreateErr env folderKey with
      | Some err => out (Some err) (bg ++ [EvRegCreateKey folderKey])
      | None =>
        match envRegCreateErr env (commandOf folderKey) with
        | Some err => out (Some err) (bg ++ four folderKey)
        | None =>
            out None (bg ++ fo ++ [EvRegDeleteKey (commandOf legacyKey);
                                   EvRegDeleteKey legacyKey])
        end
      end
    end
  end.
Proof.
  intros He. unfold updateRegistry. cbv [wExecutable wEnv]. rewrite He.
  rewrite setMenuKey_eq. cbv zeta.
  change ("Software\Classes\Directory\Background\shell" +:+ "\" +:+ AppName)
    with backgroundKey.
  destruct (envRegCreateErr env backgroundKey); [reflexivity|].
  destruct (envRegCreateErr env (commandOf backgroundKey)); [reflexivity|].
  rewrite setMenuKey_eq. cbv zeta.
  change ("Software\Classes\Directory\shell" +:+ "\" +:+ AppName) with folderKey.
  destruct (envRegCreateErr env folderKey);
    [rewrite <- app_assoc; reflexivity|].
  destruct (envRegCreateErr env (commandOf folderKey));
    [rewrite <- app_assoc; reflexivity|].
  step. rewrite <- !app_assoc. reflexivity.
Qed.

(** updateRegistry succeeds exactly when the path of the executable is known
    and the four keys can be created.  It touches nothing but the registry,
    stops at the first key that cannot be created, reporting that error, and
    removes the legacy key only when it succeeds. *)
Theorem registry_refresh_stops_at_first_failure (w : World) :
  (fst (updateRegistry w) = None <->
     (exists exe, wExecutable w = Ok exe) /\
     forall k, In k registryKeys -> wRegCreateErr w k = None) /\
  (forall msg, wExecutable w = Err msg -> updateRegistry w = (Some msg, w)) /\
  wFiles (snd (updateRegistry w)) = wFiles w /\
  exists evs,
    wTrace (snd (updateRegistry w)) = wTrace w ++ evs /\
    forallb isRegistry evs = true /\
    (forall err, fst (updateRegistry w) = Some err ->
       evs = [] \/
       exists k, In k registryKeys /\ wRegCreateErr w k = Some err /\
                 last evs = Some (EvRegCreateKey k)) /\
    (In (EvRegDeleteKey legacyKey) evs <-> fst (updateRegistry w) = None).
Proof.
  destruct w as [env files dirs trace]. cbv [wExecutable wRegCreateErr wEnv].
  destruct (envExecutable env) as [exe|msg] eqn:He.
  2:{ unfold updateRegistry. cbv [wExecutable wEnv]. rewrite He. cbn [fst snd wFiles wTrace].
      split; [split; [discriminate | intros [[exe [=]] _]]|].
      split; [now intros m [= ->]|]. split; [reflexivity|].
      exists []. rewrite app_nil_r. repeat split; auto; try discriminate.
      intros []. }
  rewrite (updateRegistry_eq exe env files dirs trace He). cbv zeta.
  destruct (menuKeyEvents_registry env backgroundKey (backgroundCommand exe))
    as (B1 & B2 & _).
  destruct (menuKeyEvents_registry env folderKey (folderCommand exe)) as (F1 & F2 & _).
  unfold registryKeys.
  assert (Hfail : forall k, In k [backgroundKey; commandOf backgroundKey; folderKey;
                                  commandOf folderKey] ->
                  envRegCreateErr env k <> None ->
                  ~ ((exists exe0, Ok exe = Ok exe0) /\
                     forall k, In k [backgroundKey; commandOf backgroundKey; folderKey;
                                     commandOf folderKey] -> envRegCreateErr env k = None)).
  { intros k Hk Hne [_ H]. now apply Hne, H. }
  destruct (envRegCreateErr env backgroundKey) as [e1|] eqn:E1.
  { cbn [fst snd wFiles wTrace].
    split; [split; [discriminate|]|].
    { intros H. exfalso. apply (Hfail backgroundKey); [cbn [In]; auto | | exact H].
      now rewrite E1. }
    split; [discriminate|]. split; [reflexivity|]. eexists. split; [reflexivity|].
    repeat split; try discriminate.
    - intros err [= <-]. right. exists backgroundKey. cbn [In]. auto.
    - intros [H|[]]. discriminate. }
  destruct (envRegCreateErr env (commandOf backgroundKey)) as [e2|] eqn:E2.
  { cbn [fst snd wFiles wTrace].
    split; [split; [discriminate|]|].
    { intros H. exfalso.
      apply (Hfail (commandOf backgroundKey)); [cbn [In]; auto | | exact H].
      now rewrite E2. }
    split; [discriminate|]. split; [reflexivity|]. eexists. split; [reflexivity|].
    repeat split; try discriminate.
    - intros err [= <-]. right. exists (commandOf backgroundKey). cbn [In last]. auto 6.
    - intros [H|[H|[H|[H|[]]]]]; discriminate. }
  destruct (envRegCreateErr env folderKey) as [e3|] eqn:E3.
  { cbn [fst snd wFiles wTrace].
    split; [split; [discriminate|]|].
    { intros H. exfalso. apply (Hfail folderKey); [cbn [In]; auto | | exact H].
      now rewrite E3. }
    split; [discriminate|]. split; [reflexivity|]. eexists. split; [reflexivity|].
    rewrite forallb_app, B1. repeat split; try discriminate.
    - intros err [= <-]. right. exists folderKey. rewrite last_snoc. cbn [In]. auto.
    - intros H. apply in_app_or in H as [H|[H|[]]]; [now apply B2 in H | discriminate]. }
  destruct (envRegCreateErr env (commandOf folderKey)) as [e4|] eqn:E4.
  { cbn [fst snd wFiles wTrace].
    split; [split; [discriminate|]|].
    { intros H. exfalso. apply (Hfail (commandOf folderKey)); [cbn [In]; auto | | exact H].
      now rewrite E4. }
    split; [discriminate|]. split; [reflexivity|]. eexists. split; [reflexivity|].
    rewrite forallb_app, B1. repeat split; try discriminate.
    - intros err [= <-]. right. exists (commandOf folderKey).
      rewrite last_app. cbn [In last]. auto 6.
    - intros H. apply in_app_or in H as [H|[H|[H|[H|[H|[]]]]]];
        [now apply B2 in H | discriminate..]. }
  cbn [fst snd wFiles wTrace].
  split.
  { split; [intros _|reflexivity]. split; [now exists exe|].
    intros k [<-|[<-|[<-|[<-|[]]]]]; assumption. }
  split; [discriminate|]. split; [reflexivity|]. eexists. split; [reflexivity|].
  rewrite !forallb_app, B1, F1. repeat split; try discriminate.
  intros _. apply in_or_app. right. apply in_or_app. right. cbn [In]. auto.
Qed.

Lemma registry_keys_differ :
  commandOf backgroundKey <> backgroundKey /\ commandOf backgroundKey <> folderKey /\
  commandOf backgroundKey <> commandOf folderKey /\
  commandOf folderKey <> backgroundKey /\ commandOf folderKey <> folderKey.
Proof. repeat split; apply String.eqb_neq; reflexivity. Qed.

(** A refresh that succeeds writes the command of a menu entry only when the
    stored command differs from the one wanted: the quoted executable for the
    background entry, the quoted executable followed by the quoted argument
    for the folder entry.  An entry that is up to date is left alone. *)
Theorem registry_command_written_only_when_changed (w : World) (exe : string) :
  wExecutable w = Ok exe ->
  fst (updateRegistry w) = None ->
  exists evs,
    wTrace (snd (updateRegistry w)) = wTrace w ++ evs /\
    (forall v, In (EvRegSetString (commandOf backgroundKey) "" v) evs <->
       v = backgroundCommand exe /\ wRegValue w (commandOf backgroundKey) <> v) /\
    (forall v, In (EvRegSetString (commandOf folderKey) "" v) evs <->
       v = folderCommand exe /\ wRegValue w (commandOf folderKey) <> v).
Proof.
  destruct w as [env files dirs trace]. cbv [wExecutable wRegValue wEnv].
  intros He. rewrite (updateRegistry_eq exe env files dirs trace He). cbv zeta.
  destruct registry_keys_differ as (K1 & K2 & K3 & K4 & K5).
  destruct (envRegCreateErr env backgroundKey); [discriminate|].
  destruct (envRegCreateErr env (commandOf backgroundKey)); [discriminate|].
  destruct (envRegCreateErr env folderKey); [discriminate|].
  destruct (envRegCreateErr env (commandOf folderKey)); [discriminate|].
  intros _. cbn [fst snd wTrace]. eexists. split; [reflexivity|].
  split; intros v; rewrite !in_app_iff, !menuKeyEvents_set; cbn [In]; split.
  - intros [[[H _]|(_ & -> & H)]|[[[H _]|(H & _)]|[H|[H|[]]]]];
      try contradiction; try discriminate. now split.
  - intros [-> H]. left. right. auto.
  - intros [[[H _]|(H & _)]|[[[H _]|(_ & -> & H)]|[H|[H|[]]]]];
      try contradiction; try discriminate; try (now symmetry in H). now split.
  - intros [-> H]. right. left. right. auto.
Qed.

Lemma updateRegistry_frame env files dirs trace :
  exists res evs,
    updateRegistry (mkWorld env files dirs trace)
      = (res, mkWorld env files dirs (trace ++ evs)) /\
    forallb isRegistry evs = true.
Proof.
  destruct (envExecutable env) as [exe|msg] eqn:He.
  2:{ unfold updateRegistry. cbv [wExecutable wEnv]. rewrite He.
      exists (Some msg), []. now rewrite app_nil_r. }
  rewrite (updateRegistry_eq exe env files dirs trace He). cbv zeta.
  destruct (menuKeyEvents_registry env backgroundKey (backgroundCommand exe))
    as (B1 & _).
  destruct (menuKeyEvents_registry env folderKey (folderCommand exe)) as (F1 & _).
  destruct (envRegCreateErr env backgroundKey);
    [do 2 eexists; split; reflexivity|].
  destruct (envRegCreateErr env (commandOf backgroundKey));
    [do 2 eexists; split; reflexivity|].
  destruct (envRegCreateErr env folderKey);
    [do 2 eexists; split; [reflexivity | now rewrite forallb_app, B1]|].
  destruct (envRegCreateErr env (commandOf folderKey));
    [do 2 eexists; split; [reflexivity | now rewrite forallb_app, B1]|].
  do 2 eexists; split; [reflexivity | now rewrite !forallb_app, B1, F1].
Qed.

Lemma registry_not_clipboard (evs : list Event) :
  forallb isRegistry evs = true ->
  List.filter isWrite evs = [] /\ forall e, In e evs -> isClipboard e = false.
Proof.
  induction evs as [|e evs IH]; [now split|].
  cbn [forallb]. intros [He H]%andb_prop. destruct (IH H) as [IW IC].
  split.
  - cbn [List.filter]. now destruct e.
  - intros e' [<-|H']; [now destruct e | now apply IC].
Qed.

(** ** What the choice of the save directory leaves alone *)

Lemma resolveSaveDir_frame (cfg : Config) env files dirs trace :
  exists dir evs,
    resolveSaveDir cfg (mkWorld env files dirs trace)
      = (dir, mkWorld env files dirs (trace ++ evs)) /\
    forallb isPrompt evs = true.
Proof.
  unfold resolveSaveDir, askForFolder. step.
  destruct (envArgs env) as [|a0 [|a1 rest]];
    try (exists (strings_TrimSpace a1), []; now rewrite app_nil_r);
    destruct (AutoSave cfg);
    try destruct (pathExists (mkWorld env files dirs trace) (StartDir cfg));
    try (exists (StartDir cfg), []; now rewrite app_nil_r);
    destruct (envBrowse env askTitle); do 2 eexists; split; reflexivity.
Qed.

Lemma prompt_not_clipboard (evs : list Event) :
  forallb isPrompt evs = true ->
  List.filter isWrite evs = [] /\ forall e, In e evs -> isClipboard e = false.
Proof.
  induction evs as [|e evs IH]; [now split|].
  cbn [forallb]. intros [He H]%andb_prop. destruct (IH H) as [IW IC].
  split.
  - cbn [List.filter]. now destruct e.
  - intros e' [<-|H']; [now destruct e | now apply IC].
Qed.

Lemma existsb_none (P : Event -> bool) (evs : list Event) :
  existsb P evs = false -> forall e, In e evs -> P e = false.
Proof.
  intros H e He. destruct (P e) eqn:E; [|reflexivity].
  assert (existsb P evs = true) by (apply existsb_exists; eauto). congruence.
Qed.

Section RunProperties.

(** [filepath.Join] and [filepath.Dir], as in the program. *)
Variable Join : list string -> string.
Variable Dir : string -> string.

(** ** The Save Pipeline *)

Lemma savePipeline_saved (cfg : Config) (saveDir content : string) env files dirs trace :
  envClipboard env = Ok content ->
  firstLineOf content <> "" ->
  let name := safeFilenameOf cfg (firstLineOf content) in
  let path := Join [saveDir; name] in
  exists msg,
    savePipeline Join cfg saveDir (mkWorld env files dirs trace) =
    match envWriteErr env path with
    | Some err =>
        mkWorld env files dirs
          (trace ++ [EvClipboardRead; EvWriteFile path content;
                     EvError AppName ("Error saving file:" +:+ nl +:+ err)])
    | None =>
        mkWorld env (<[path := content]> files) dirs
          (trace ++ [EvClipboardRead; EvWriteFile path content]
             ++ (if GitAutoCommit cfg then gitEvents env saveDir name else [])
             ++ [EvClipboardWrite ""]
             ++ (if ShowSuccess cfg then [EvInfo AppName msg] else []))
    end.
Proof.
  intros Hclip Hfirst name path.
  assert (Hcontent : String.eqb content "" = false).
  { apply String.eqb_neq. intros ->. apply Hfirst, firstLineOf_empty. }
  apply String.eqb_neq in Hfirst.
  unfold savePipeline. step. rewrite Hclip. cbv beta iota.
  rewrite Hcontent, Hfirst, os_WriteFile_eq. fold name. fold path.
  destruct (envWriteErr env path) as [err|]; step.
  { exists "". rewrite <- !app_assoc. reflexivity. }
  destruct (GitAutoCommit cfg).
  - pose proof (runGitCommit_events saveDir name env (<[path:=content]> files) dirs
                  ((trace ++ [EvClipboardRead]) ++ [EvWriteFile path content])) as E.
    destruct (runGitCommit saveDir name _) as [res w']. cbn [snd] in E. subst w'.
    destruct res, (ShowSuccess cfg); step;
      first [ eexists; rewrite <- !app_assoc; cbn [app]; reflexivity
            | exists ""; rewrite <- !app_assoc; cbn [app]; reflexivity ].
  - destruct (ShowSuccess cfg); step;
      first [ eexists; rewrite <- !app_assoc; cbn [app]; reflexivity
            | exists ""; rewrite <- !app_assoc; cbn [app]; reflexivity ].
Qed.

Lemma savePipeline_nothing (cfg : Config) (saveDir : string) env files dirs trace :
  (forall content, envClipboard env = Ok content -> firstLineOf content = "") ->
  savePipeline Join cfg saveDir (mkWorld env files dirs trace)
  = mkWorld env files dirs (trace ++ [EvClipboardRead]).
Proof.
  intros H. unfold savePipeline. step.
  destruct (envClipboard env) as [content|msg]; [|reflexivity].
  specialize (H content eq_refl). rewrite H.
  now destruct (String.eqb content "").
Qed.



(** The pipeline attempts a write exactly when the clipboard is readable and
    its first line is not blank, and then only one. *)
Theorem pipeline_writes_once_iff_first_line (cfg : Config) (saveDir : string) (w : World) :
  exists evs,
    wTrace (savePipeline Join cfg saveDir w) = wTrace w ++ evs /\
    length (List.filter isWrite evs) <= 1 /\
    (existsb isWrite evs = true <->
       exists content, wClipboard w = Ok content /\ firstLineOf content <> "").
Proof.
  destruct w as [env files dirs trace]. step.
  destruct (envClipboard env) as [content|msg] eqn:Hclip.
  - destruct (String.eqb_spec (firstLineOf content) "") as [Hfl|Hfl].
    + rewrite savePipeline_nothing
        by (intros c Hc; rewrite Hclip in Hc; now injection Hc as <-).
      exists [EvClipboardRead]. split; [reflexivity|]. split; [simpl; lia|].
      split; [discriminate|]. intros (c & [= <-] & Hc). contradiction.
    + destruct (savePipeline_saved cfg saveDir content env files dirs trace Hclip Hfl)
        as (m & E).
      rewrite E.
      assert (G : List.filter isWrite
                    (if GitAutoCommit cfg
                     then gitEvents env saveDir (safeFilenameOf cfg (firstLineOf content))
                     else []) = []).
      { destruct (GitAutoCommit cfg); [|reflexivity].
        destruct (gitEvents_cases env saveDir (safeFilenameOf cfg (firstLineOf content)))
          as [[_ ->] | [_ [-> | ->]]]; reflexivity. }
      destruct (envWriteErr env _); cbn [wTrace]; eexists; (split; [reflexivity|]).
      * split; [simpl; lia|]. split; [intros _; now exists content | reflexivity].
      * split.
        -- cbn [app List.filter isWrite]. rewrite List.filter_app, G.
           destruct (ShowSuccess cfg); simpl; lia.
        -- split; [intros _; now exists content | reflexivity].
  - rewrite savePipeline_nothing by (intros c Hc; rewrite Hclip in Hc; discriminate).
    exists [EvClipboardRead]. split; [reflexivity|]. split; [simpl; lia|].
    split; [discriminate|]. intros (c & [=] & _).
Qed.

(** The commit step runs only after a successful write, with GitAutoCommit
    set and git found; it runs in the save directory and names the file just
    written; the pipeline runs no other command. *)
Theorem git_runs_only_after_a_successful_write
    (cfg : Config) (saveDir content : string) (w : World) :
  let name := safeFilenameOf cfg (firstLineOf content) in
  wClipboard w = Ok content ->
  firstLineOf content <> "" ->
  exists evs,
    wTrace (savePipeline Join cfg saveDir w) = wTrace w ++ evs /\
    (In (EvExec saveDir (gitAdd name)) evs <->
       wWriteErr w (Join [saveDir; name]) = None /\ GitAutoCommit cfg = true /\
       wLookPath w "git" = true) /\
    (forall e, In e evs -> isExec e = true ->
       e = EvExec saveDir (gitAdd name) \/ e = EvExec saveDir (gitCommit name)).
Proof.
  destruct w as [env files dirs trace]. intros name Hclip Hfirst. step in Hclip. step.
  destruct (savePipeline_saved cfg saveDir content env files dirs trace Hclip Hfirst)
    as (m & E).
  fold name in E. rewrite E.
  destruct (git_step_events cfg env saveDir name) as [G1 G2]. cbv zeta in G1, G2.
  destruct (envWriteErr env _) as [err|]; cbn [wTrace]; eexists; (split; [reflexivity|]).
  - split.
    + split; [|intros (H & _); discriminate].
      intros [H|[H|[H|[]]]]; discriminate.
    + intros e [<-|[<-|[<-|[]]]]; discriminate.
  - split.
    + rewrite <- G1. cbn [app In]. rewrite !in_app_iff. cbn [In]. split.
      * intros [H|[H|[H|[H|H]]]]; try discriminate; [now split|].
        destruct (ShowSuccess cfg); cbn [In] in H; [destruct H as [H|[]]|destruct H];
          discriminate.
      * intros [_ H]. now do 2 right; left.
    + intros e He Hx. cbn [app In] in He. rewrite !in_app_iff in He. cbn [In] in He.
      destruct He as [<-|[<-|[He|[<-|He]]]]; try discriminate; [now apply G2|].
      destruct (ShowSuccess cfg); cbn [In] in He; [destruct He as [<-|[]]|destruct He];
        discriminate.
Qed.

(** ** The save directory *)

(** With a path argument the save directory is the trimmed argument, whatever
    the configuration says and whether or not the directory exists, and no
    dialog is shown; the run goes on to the pipeline unless the trimmed
    argument is empty, in which case it ends there. *)
Theorem argument_overrides_configuration
    (cfg : Config) (w : World) (a0 a1 : string) (rest : list string) :
  wArgs w = a0 :: a1 :: rest ->
  resolveSaveDir cfg w = (strings_TrimSpace a1, w) /\
  forall w0 w1,
    loadConfig Join Dir w0 = (cfg, false, false, w1) ->
    updateRegistry w1 = (None, w) ->
    main Join Dir w0 =
      if String.eqb (strings_TrimSpace a1) "" then w
      else savePipeline Join cfg (strings_TrimSpace a1) w.
Proof.
  intros Ha.
  assert (E : resolveSaveDir cfg w = (strings_TrimSpace a1, w))
    by (unfold resolveSaveDir; now rewrite Ha).
  split; [exact E|]. intros w0 w1 Hl Hr. unfold main. rewrite Hl. cbv beta iota.
  now rewrite Hr, E.
Qed.

(** Without an argument, when auto-save is off or the default directory is
    missing, the folder dialog is shown once, seeded with the default only
    when that is an existing directory; a cancelled dialog, or an empty
    answer, ends the run with the dialog as its last effect. *)
Theorem folder_dialog_when_no_default_applies (cfg : Config) (w : World) :
  length (wArgs w) <= 1 ->
  AutoSave cfg = false \/ pathExists w (StartDir cfg) = false ->
  let seed := if pathExists w (StartDir cfg) && pathIsDir w (StartDir cfg)
              then Some (StartDir cfg) else None in
  let answer := match wBrowse w askTitle with Ok dir => dir | Err _ => "" end in
  resolveSaveDir cfg w = (answer, emit (EvBrowse askTitle seed) w) /\
  forall w0 w1,
    loadConfig Join Dir w0 = (cfg, false, false, w1) ->
    updateRegistry w1 = (None, w) ->
    answer = "" ->
    main Join Dir w0 = emit (EvBrowse askTitle seed) w.
Proof.
  intros Hargs Hno seed answer.
  assert (E : resolveSaveDir cfg w = (answer, emit (EvBrowse askTitle seed) w)).
  { unfold resolveSaveDir, askForFolder, dialog_Browse. fold seed. subst answer.
    destruct (wArgs w) as [|a0 [|a1 rest]]; simpl in Hargs; try lia;
      destruct Hno as [-> | Hno]; rewrite ?Hno;
      destruct (AutoSave cfg); destruct (wBrowse w askTitle); reflexivity. }
  split; [exact E|]. intros w0 w1 Hl Hr Hempty. unfold main. rewrite Hl. cbv beta iota.
  now rewrite Hr, E, Hempty.
Qed.

(** ** The Setup Wizard *)

Lemma createDesktopShortcut_run env files dirs trace :
  createDesktopShortcut Join (mkWorld env files dirs trace)
  = (fst (shortcutRun Join env),
     mkWorld env files dirs (trace ++ snd (shortcutRun Join env))).
Proof.
  unfold createDesktopShortcut, shortcutRun, shortcutCommand. step.
  repeat answer; cbn [fst snd]; rewrite ?app_nil_r; reflexivity.
Qed.

Lemma wizard_run (path : string) env files dirs trace :
  runSetupWizard Join path (mkWorld env files dirs trace) =
  let out cfg cancelled fs evs := (cfg, cancelled, mkWorld env fs dirs (trace ++ evs)) in
  let warn := [EvWarning AppName cancelledMsg] in
  match envBrowse env step1Title with
  | Err _ => out zeroConfig true files (wizardStep1 ++ warn)
  | Ok startDir =>
    if negb (snd (envEntry env "Step 2: File Extension"))
    then out zeroConfig true files (wizardStep1 ++ wizardStep2 ++ warn)
    else if negb (snd (envEntry env "Step 3: Prefix Stripping"))
    then out zeroConfig true files (wizardStep1 ++ wizardStep2 ++ wizardStep3 ++ warn)
    else
      let cfg := mkConfig startDir (fst (envEntry env "Step 2: File Extension"))
                   (fst (envEntry env "Step 3: Prefix Stripping")) true
                   (fst (envQuestion env step5Title)) (fst (envQuestion env step4Title)) in
      out cfg false
        (match envWriteErr env path with
         | Some _ => files
         | None => <[path := configFileContent cfg]> files
         end)
        (wizardStep1 ++ wizardStep2 ++ wizardStep3 ++ wizardQuestions
         ++ [EvWriteFile path (configFileContent cfg)]
         ++ (if fst (envQuestion env step6Title) then shortcutEvents Join env else [])
         ++ [EvInfo AppName (finalMsg path)])
  end.
Proof.
  unfold runSetupWizard. step.
  destruct (envBrowse env step1Title) as [startDir|msg]; cbv beta iota;
    [|cbv [wizardStep1]; rewrite <- !app_assoc; reflexivity].
  destruct (envEntry env "Step 2: File Extension") as [ext [|]]; cbv beta iota;
    [|cbv [wizardStep1 wizardStep2]; rewrite <- !app_assoc; reflexivity].
  destruct (envEntry env "Step 3: Prefix Stripping") as [pre [|]]; cbv beta iota;
    [|cbv [wizardStep1 wizardStep2 wizardStep3]; rewrite <- !app_assoc; reflexivity].
  destruct (envQuestion env step4Title) as [useGit e4].
  destruct (envQuestion env step5Title) as [autoSave e5].
  destruct (envQuestion env step6Title) as [shortcut e6].
  cbv beta iota. rewrite !saveConfigToFile_eq.
  cbv [wizardStep1 wizardStep2 wizardStep3 wizardQuestions].
  destruct shortcut.
  - rewrite !createDesktopShortcut_run. unfold shortcutEvents.
    destruct (fst (shortcutRun Join env)); step; rewrite <- !app_assoc; reflexivity.
  - step. rewrite <- !app_assoc. reflexivity.
Qed.

Lemma shortcutEvents_cases (env : Env) :
  let ev := shortcutEvents Join env in
  List.filter isPrompt ev = [] /\ List.filter isWrite ev = [] /\
  existsb isClipboard ev = false /\
  (existsb isExec ev = true <->
     exists exe home, envExecutable env = Ok exe /\ envHomeDir env = Ok home) /\
  (forall e, In e ev -> isExec e = true ->
     exists exe home, envExecutable env = Ok exe /\ envHomeDir env = Ok home /\
                      e = EvExec "" (shortcutCommand Join home exe)) /\
  (forall err, fst (shortcutRun Join env) = Some err ->
     last ev = Some (EvError AppName ("Could not create shortcut:" +:+ nl +:+ err))).
Proof.
  unfold shortcutEvents, shortcutRun.
  destruct (envExecutable env) as [exe|e1]; [destruct (envHomeDir env) as [home|e2]|];
    cbn [fst snd app].
  - destruct (snd (envExec env "" (shortcutCommand Join home exe))) as [err|];
      cbn; repeat split; try discriminate; eauto.
    + intros e [<-|[<-|[]]]; [eauto | discriminate].
    + now intros e0 [= ->].
    + intros e [<-|[]]; eauto.
  - cbn; repeat split; try discriminate.
    + intros (? & ? & _ & [=]).
    + intros e [<-|[]]; discriminate.
    + now intros e0 [= ->].
  - cbn; repeat split; try discriminate.
    + intros (? & ? & [=] & _).
    + intros e [<-|[]]; discriminate.
    + now intros e0 [= ->].
Qed.


(** A wizard that is not cancelled writes the configuration file exactly
    once, after the last question, and runs a command only for the shortcut:
    when the sixth answer is yes and the executable and the home directory
    are known.  A shortcut that cannot be created is reported but does not
    stop the wizard, which still returns the configuration it has written. *)
Theorem shortcut_only_on_request (path : string) (w : World) :
  wizardCancelled w = false ->
  exists cfg evs,
    fst (runSetupWizard Join path w) = (cfg, false) /\
    wTrace (snd (runSetupWizard Join path w)) = wTrace w ++ evs /\
    List.filter isWrite evs = [EvWriteFile path (configFileContent cfg)] /\
    (existsb isExec evs = true <->
       fst (wQuestion w step6Title) = true /\
       exists exe home, wExecutable w = Ok exe /\ wHomeDir w = Ok home) /\
    (forall e, In e evs -> isExec e = true ->
       exists exe home, wExecutable w = Ok exe /\ wHomeDir w = Ok home /\
                        e = EvExec "" (shortcutCommand Join home exe)) /\
    (forall err, fst (wQuestion w step6Title) = true ->
       fst (shortcutRun Join (wEnv w)) = Some err ->
       In (EvError AppName ("Could not create shortcut:" +:+ nl +:+ err)) evs).
Proof.
  destruct w as [env files dirs trace]. unfold wizardCancelled. step.
  rewrite wizard_run. cbv zeta.
  destruct (envBrowse env step1Title) as [startDir|msg]; [|discriminate].
  destruct (envEntry env "Step 2: File Extension") as [ext [|]]; [|discriminate].
  destruct (envEntry env "Step 3: Prefix Stripping") as [pre [|]]; [|discriminate].
  intros _. cbv beta iota. cbn [fst snd wTrace].
  eexists. eexists. split; [reflexivity|]. split; [reflexivity|].
  destruct (shortcutEvents_cases env) as (_ & W & _ & X & Y & Z). cbv zeta in W, X, Y, Z.
  destruct (envQuestion env step6Title) as [[|] e6]; cbn [fst]; cbv beta iota.
  - split; [now rewrite !List.filter_app, W|].
    split; [|split].
    + rewrite !existsb_app.
      cbn [wizardStep1 wizardStep2 wizardStep3 wizardQuestions existsb isExec orb].
      rewrite orb_false_r, X. split; [now split | now intros [_ H]].
    + intros e He Hx. rewrite !in_app_iff in He.
      destruct He as [He|[He|[He|[He|[He|[He|He]]]]]];
        try (now apply Y);
        cbn [wizardStep1 wizardStep2 wizardStep3 wizardQuestions In] in He;
        repeat (destruct He as [<-|He]; [discriminate|]); destruct He.
    + intros err _ Hs. apply Z in Hs. rewrite !in_app_iff. do 5 right. left.
      destruct (shortcutEvents Join env) as [|e0 l] using rev_ind; [discriminate|].
      rewrite last_snoc in Hs. injection Hs as ->. apply in_or_app. right. now left.
  - split; [reflexivity|]. split; [|split].
    + cbn. split; [discriminate | now intros [[=] _]].
    + intros e He Hx. rewrite !in_app_iff in He.
      destruct He as [He|[He|[He|[He|[He|[He|He]]]]]];
        cbn [wizardStep1 wizardStep2 wizardStep3 wizardQuestions In] in He;
        repeat (destruct He as [<-|He]; [discriminate|]); destruct He.
    + discriminate.
Qed.

(** ** A whole run *)

Lemma wizard_frame (path : string) env files dirs trace :
  exists cfg cancelled files' evs,
    runSetupWizard Join path (mkWorld env files dirs trace)
      = (cfg, cancelled, mkWorld env files' dirs (trace ++ evs)) /\
    existsb isClipboard evs = false /\
    length (List.filter isWrite evs) <= 1 /\
    (files' = files \/
     exists p c, In (EvWriteFile p c) evs /\ files' = <[p := c]> files).
Proof.
  rewrite wizard_run. cbv zeta.
  destruct (envBrowse env step1Title) as [startDir|msg].
  2:{ do 4 eexists. split; [reflexivity|]. split; [reflexivity|].
      split; [cbn; lia | now left]. }
  destruct (envEntry env "Step 2: File Extension") as [ext [|]]; cbn [fst snd negb].
  2:{ do 4 eexists. split; [reflexivity|]. split; [reflexivity|].
      split; [cbn; lia | now left]. }
  destruct (envEntry env "Step 3: Prefix Stripping") as [pre [|]]; cbn [fst snd negb].
  2:{ do 4 eexists. split; [reflexivity|]. split; [reflexivity|].
      split; [cbn; lia | now left]. }
  do 4 eexists. split; [reflexivity|].
  destruct (shortcutEvents_cases env) as (_ & W & C & _). cbv zeta in W, C.
  assert (E : forall b : bool,
             List.filter isWrite (if b then shortcutEvents Join env else []) = [] /\
             existsb isClipboard (if b then shortcutEvents Join env else []) = false)
    by (now intros []).
  split; [|split].
  - rewrite !existsb_app, (proj2 (E _)). reflexivity.
  - rewrite !List.filter_app, (proj1 (E _)). cbn. lia.
  - destruct (envWriteErr env path); [now left|]. right. do 2 eexists.
    split; [|reflexivity]. rewrite !in_app_iff. do 4 right. left. now left.
Qed.

Lemma loadConfig_later env files dirs trace :
  pathExists (mkWorld env files dirs trace)
    (configPath Join Dir (mkWorld env files dirs trace)) = true ->
  exists cfg,
    loadConfig Join Dir (mkWorld env files dirs trace)
      = (cfg, false, false, mkWorld env files dirs trace).
Proof.
  intros Hex. unfold loadConfig. rewrite Hex. cbn [negb].
  destruct (wOpenErr _ _); [now eexists|].
  destruct (wFiles _ !! _); now eexists.
Qed.

Lemma savePipeline_frame (cfg : Config) (saveDir : string) env files dirs trace :
  exists files' evs,
    savePipeline Join cfg saveDir (mkWorld env files dirs trace)
      = mkWorld env files' dirs (trace ++ evs) /\
    length (List.filter isWrite evs) <= 1 /\
    (files' = files \/
     exists p c, In (EvWriteFile p c) evs /\ files' = <[p := c]> files) /\
    (forall x, In (EvClipboardWrite x) evs ->
       x = "" /\
       exists p c, envClipboard env = Ok c /\ In (EvWriteFile p c) evs /\
                   files' !! p = Some c).
Proof.
  destruct (envClipboard env) as [content|msg] eqn:Hclip.
  2:{ rewrite savePipeline_nothing by (intros c Hc; rewrite Hclip in Hc; discriminate).
      do 2 eexists. split; [reflexivity|]. split; [cbn; lia|]. split; [now left|].
      intros x [H|[]]. discriminate. }
  destruct (String.eqb_spec (firstLineOf content) "") as [Hfl|Hfl].
  { rewrite savePipeline_nothing
      by (intros c Hc; rewrite Hclip in Hc; now injection Hc as <-).
    do 2 eexists. split; [reflexivity|]. split; [cbn; lia|]. split; [now left|].
    intros x [H|[]]. discriminate. }
  destruct (savePipeline_saved cfg saveDir content env files dirs trace Hclip Hfl)
    as (m & E).
  rewrite E. clear E.
  set (name := safeFilenameOf cfg (firstLineOf content)).
  destruct (git_step_events cfg env saveDir name) as [_ G]. cbv zeta in G.
  assert (Gw : List.filter isWrite
                 (if GitAutoCommit cfg then gitEvents env saveDir name else []) = []).
  { destruct (GitAutoCommit cfg); [|reflexivity].
    destruct (gitEvents_cases env saveDir name) as [[_ ->] | [_ [-> | ->]]]; reflexivity. }
  destruct (envWriteErr env _) as [err|].
  - do 2 eexists. split; [reflexivity|]. split; [cbn; lia|]. split; [now left|].
    intros x [H|[H|[H|[]]]]; discriminate.
  - do 2 eexists. split; [reflexivity|]. split; [|split].
    + cbn [app List.filter isWrite]. rewrite List.filter_app, Gw.
      destruct (ShowSuccess cfg); cbn; lia.
    + right. do 2 eexists. split; [|reflexivity]. right. now left.
    + intros x Hx. cbn [app In] in Hx. rewrite !in_app_iff in Hx. cbn [In] in Hx.
      destruct Hx as [Hx|[Hx|[Hx|[Hx|Hx]]]]; try discriminate.
      * apply G in Hx as [Hx|Hx]; discriminate.
      * injection Hx as <-. split; [reflexivity|]. do 2 eexists.
        split; [reflexivity|]. split; [right; now left | apply lookup_insert_eq].
      * destruct (ShowSuccess cfg); cbn [In] in Hx;
          [destruct Hx as [Hx|[]] | destruct Hx]; discriminate.
Qed.

Lemma main_run env files dirs trace :
  let w := mkWorld env files dirs trace in
  exists files' evs,
    main Join Dir w = mkWorld env files' dirs (trace ++ evs) /\
    length (List.filter isWrite evs) <= 1 /\
    (files' = files \/
     exists p c, In (EvWriteFile p c) evs /\ files' = <[p := c]> files) /\
    (forall e, In e evs -> isClipboard e = true ->
       pathExists w (configPath Join Dir w) = true /\ fst (updateRegistry w) = None) /\
    (forall x, In (EvClipboardWrite x) evs ->
       x = "" /\
       exists p c, envClipboard env = Ok c /\ In (EvWriteFile p c) evs /\
                   files' !! p = Some c).
Proof.
  intros w. subst w.
  destruct (pathExists (mkWorld env files dirs trace)
              (configPath Join Dir (mkWorld env files dirs trace))) eqn:Hex.
  - destruct (loadConfig_later env files dirs trace Hex) as (cfg & Hl).
    unfold main. rewrite Hl. cbv beta iota.
    destruct (updateRegistry_frame env files dirs trace) as (res & er & -> & Hr).
    destruct (registry_not_clipboard er Hr) as [Rw Rc]. cbn [fst].
    destruct res as [err|].
    { step. do 2 eexists. rewrite <- app_assoc. split; [reflexivity|].
      split; [rewrite List.filter_app, Rw; cbn; lia|]. split; [now left|]. split.
      - intros e [He|[<-|[]]]%in_app_iff Hc; [|discriminate].
        apply Rc in He. congruence.
      - intros x [He|[He|[]]]%in_app_iff; [|discriminate].
        apply Rc in He. discriminate. }
    destruct (resolveSaveDir_frame cfg env files dirs (trace ++ er))
      as (dir & ed & -> & Hd).
    destruct (prompt_not_clipboard ed Hd) as [Dw Dc].
    destruct (String.eqb dir "").
    { do 2 eexists. rewrite <- app_assoc. split; [reflexivity|].
      split; [rewrite List.filter_app, Rw, Dw; cbn; lia|]. split; [now left|]. split.
      - intros e [He|He]%in_app_iff Hc; [apply Rc in He | apply Dc in He]; congruence.
      - intros x [He|He]%in_app_iff; [apply Rc in He | apply Dc in He]; discriminate. }
    destruct (savePipeline_frame cfg dir env files dirs ((trace ++ er) ++ ed))
      as (files' & ep & -> & Pw & Pf & Pc).
    do 2 eexists. rewrite <- !app_assoc. split; [reflexivity|].
    split; [rewrite !List.filter_app, Rw, Dw; exact Pw|]. split.
    { destruct Pf as [->|(p & c & Hp & ->)]; [now left|]. right. exists p, c.
      split; [|reflexivity]. rewrite !in_app_iff. auto. }
    split; [now intros|].
    intros x [He|[He|He]%in_app_iff]%in_app_iff;
      [apply Rc in He; discriminate | apply Dc in He; discriminate |].
    destruct (Pc x He) as (-> & p & c & H1 & H2 & H3). split; [reflexivity|].
    exists p, c. rewrite !in_app_iff. auto.
  - unfold main, loadConfig. rewrite Hex. cbn [negb].
    destruct (wizard_frame (configPath Join Dir (mkWorld env files dirs trace))
                env files dirs trace)
      as (cfg & cancelled & files' & ew & -> & Wc & Ww & Wf).
    pose proof (existsb_none _ _ Wc) as Wn.
    destruct cancelled.
    { do 2 eexists. split; [reflexivity|]. split; [exact Ww|]. split; [exact Wf|]. split.
      - intros e He Hc. apply Wn in He. congruence.
      - intros x He. apply Wn in He. discriminate. }
    destruct (updateRegistry_frame env files' dirs (trace ++ ew)) as (res & er & -> & Hr).
    destruct (registry_not_clipboard er Hr) as [Rw Rc].
    assert (Hf : files' = files \/
                 exists p c, In (EvWriteFile p c) (ew ++ er) /\ files' = <[p := c]> files).
    { destruct Wf as [->|(p & c & Hp & ->)]; [now left|]. right. exists p, c.
      split; [|reflexivity]. rewrite in_app_iff. auto. }
    destruct res as [err|].
    + step. do 2 eexists. rewrite <- !app_assoc. split; [reflexivity|].
      split; [rewrite !List.filter_app, Rw; cbn; rewrite app_nil_r; exact Ww|]. split.
      { destruct Hf as [->|(p & c & Hp & ->)]; [now left|]. right. exists p, c.
        split; [|reflexivity]. rewrite app_assoc, in_app_iff. auto. }
      split.
      * intros e [He|[He|[<-|[]]]%in_app_iff]%in_app_iff Hc;
          [apply Wn in He | apply Rc in He | ]; try discriminate; congruence.
      * intros x [He|[He|[He|[]]]%in_app_iff]%in_app_iff;
          [apply Wn in He | apply Rc in He | ]; discriminate.
    + do 2 eexists. rewrite <- !app_assoc. split; [reflexivity|].
      split; [rewrite !List.filter_app, Rw, app_nil_r; exact Ww|].
      split; [exact Hf|]. split.
      * intros e [He|He]%in_app_iff Hc; [apply Wn in He | apply Rc in He]; congruence.
      * intros x [He|He]%in_app_iff; [apply Wn in He | apply Rc in He]; discriminate.
Qed.


(** The clipboard is touched only on a run that found its configuration file
    and refreshed the registry, so never on a first run; and it is cleared
    only after its content has been written: the file of the logged write
    holds the text the clipboard held. *)
Theorem clipboard_cleared_only_after_save (w : World) :
  exists evs,
    wTrace (main Join Dir w) = wTrace w ++ evs /\
    (forall e, In e evs -> isClipboard e = true ->
       pathExists w (configPath Join Dir w) = true /\ fst (updateRegistry w) = None) /\
    (forall x, In (EvClipboardWrite x) evs ->
       x = "" /\
       exists p c, wClipboard w = Ok c /\ In (EvWriteFile p c) evs /\
                   wFiles (main Join Dir w) !! p = Some c).
Proof.
  destruct w as [env files dirs trace].
  destruct (main_run env files dirs trace) as (files' & evs & E & _ & _ & Hc & Hx).
  cbv zeta in E, Hc. rewrite E. cbn [wTrace wFiles]. exists evs. auto.
Qed.

Lemma loadConfig_env (w w1 : World) (cfg : Config) (cancelled first : bool) :
  loadConfig Join Dir w = (cfg, cancelled, first, w1) -> wEnv w1 = wEnv w.
Proof.
  destruct w as [env files dirs trace]. intros Hl.
  destruct (pathExists (mkWorld env files dirs trace)
              (configPath Join Dir (mkWorld env files dirs trace))) eqn:Hex.
  - destruct (loadConfig_later env files dirs trace Hex) as (cfg' & E).
    rewrite E in Hl. now injection Hl as _ _ _ <-.
  - unfold loadConfig in Hl. rewrite Hex in Hl. cbn [negb] in Hl.
    destruct (wizard_frame (configPath Join Dir (mkWorld env files dirs trace))
                env files dirs trace) as (c & b & f & ev & E & _).
    rewrite E in Hl. now injection Hl as _ _ _ <-.
Qed.

(** When the path of the executable is unknown the configuration file is
    looked for in the current directory, and a run whose load is not
    cancelled ends on the setup error with the message of the failure: the
    registry is not touched and the clipboard is not read. *)
Theorem unknown_executable_ends_in_setup_error (w : World) (msg : string) :
  wExecutable w = Err msg ->
  getExeDir Dir w = "." /\
  configPath Join Dir w = Join ["."; ConfigFileName] /\
  forall cfg first w1,
    loadConfig Join Dir w = (cfg, false, first, w1) ->
    main Join Dir w =
      dlgs_Error AppName
        ("Setup Error:" +:+ nl +:+ "Failed to update registry settings." +:+ nl +:+ msg) w1.
Proof.
  intros He.
  assert (G : getExeDir Dir w = ".") by (unfold getExeDir; now rewrite He).
  split; [exact G|]. split; [unfold configPath; now rewrite G|].
  intros cfg first w1 Hl. unfold main. rewrite Hl. cbv beta iota.
  apply loadConfig_env in Hl. unfold updateRegistry, wExecutable. rewrite Hl.
  unfold wExecutable in He. now rewrite He.
Qed.

End RunProperties.

(** ** The further properties on the sample machine *)



Lemma git_runs_only_after_a_successful_write_witness :
  exists evs,
    wTrace (savePipeline sampleJoin autoCfg "C:\repo" laterRunWorld)
      = wTrace laterRunWorld ++ evs /\
    forall e, In e evs -> isExec e = true ->
      e = EvExec "C:\repo" (gitAdd "foo(){}.dg") \/
      e = EvExec "C:\repo" (gitCommit "foo(){}.dg").
Proof.
  destruct (git_runs_only_after_a_successful_write sampleJoin autoCfg "C:\repo"
              ("void foo(){}" +:+ nl +:+ "body") laterRunWorld)
    as (evs & E & _ & H).
  - reflexivity.
  - vm_compute. discriminate.
  - exists evs. split; [exact E | exact H].
Defined.

Lemma argument_overrides_configuration_witness :
  let w := withArgs ["C:\tools\dgGit.exe"; " D:\work "] laterRunWorld in
  resolveSaveDir autoCfg w = ("D:\work", w).
Proof.
  intros w.
  refine (proj1 (argument_overrides_configuration sampleJoin sampleDir autoCfg w
                   "C:\tools\dgGit.exe" " D:\work " [] _)).
  reflexivity.
Defined.

Lemma folder_dialog_when_no_default_applies_witness :
  resolveSaveDir wizardCfg laterRunWorld
  = ("C:\repo", emit (EvBrowse askTitle (Some "C:\repo")) laterRunWorld).
Proof.
  refine (proj1 (folder_dialog_when_no_default_applies sampleJoin sampleDir wizardCfg
                   laterRunWorld _ _)).
  - vm_compute. lia.
  - left. reflexivity.
Defined.

Lemma registry_command_written_only_when_changed_witness :
  exists evs,
    wTrace (snd (updateRegistry laterRunWorld)) = wTrace laterRunWorld ++ evs /\
    In (EvRegSetString (commandOf folderKey) "" (folderCommand "C:\tools\dgGit.exe")) evs.
Proof.
  destruct (registry_command_written_only_when_changed laterRunWorld "C:\tools\dgGit.exe")
    as (evs & E & _ & H).
  - reflexivity.
  - vm_compute. reflexivity.
  - exists evs. split; [exact E|]. apply H. split; [reflexivity|].
    vm_compute. discriminate.
Defined.

Lemma shortcut_only_on_request_witness :
  exists cfg evs,
    fst (runSetupWizard sampleJoin sampleCfgPath firstRunWorld) = (cfg, false) /\
    wTrace (snd (runSetupWizard sampleJoin sampleCfgPath firstRunWorld))
      = wTrace firstRunWorld ++ evs /\
    List.filter isWrite evs = [EvWriteFile sampleCfgPath (configFileContent cfg)].
Proof.
  destruct (shortcut_only_on_request sampleJoin sampleCfgPath firstRunWorld)
    as (cfg & evs & E1 & E2 & E3 & _).
  - vm_compute. reflexivity.
  - exists cfg, evs. split; [exact E1|]. split; [exact E2 | exact E3].
Defined.

Lemma unknown_executable_ends_in_setup_error_witness :
  configPath sampleJoin sampleDir (withExecutable (Err "no path") laterRunWorld)
  = ".\dggit.cfg".
Proof.
  refine (proj1 (proj2 (unknown_executable_ends_in_setup_error sampleJoin sampleDir
                          (withExecutable (Err "no path") laterRunWorld) "no path" _))).
  reflexivity.
Defined.
